(** * open-rag: the PgVector collection of [prototype/vagentic/vectordb/pgvector.py]

    A shallow embedding of the [PgVector] class: the backing table and its
    rows, the transactional session used by [insert] and [upsert], the
    statement built by [search], the existence and count probes, and the
    index sizing of [optimize].  The relational engine, SQLAlchemy and the
    embedding provider are outside the file; they are modelled by an explicit
    database state and by the variables of the section [Model]. *)

From Stdlib Require Import ZArith List String Ascii Bool Lia Sorted Permutation.
From Stdlib Require Import Floats.SpecFloat.
Import ListNotations.
Open Scope string_scope.
Open Scope list_scope.
Open Scope Z_scope.

(* ================================================================== *)
(** ** Python values used by the module *)
(* ================================================================== *)

Module Py.

(** The exceptions that the modelled code paths can meet. *)
Inductive exn : Type :=
| NameError (name : string)          (* an unbound global name *)
| ValueError (msg : string)          (* math domain error, int() of nan *)
| OverflowError (msg : string)       (* int too large for a float, int() of inf *)
| EmbeddingError                     (* the embedding provider gave nothing *)
| OperationalError                   (* the engine cannot be reached *)
| ProgrammingError (msg : string)    (* undefined table, rejected DDL *)
| IntegrityError (key : string)      (* duplicate primary key *)
| DataError (msg : string).          (* wrong vector length, negative LIMIT *)

(** A computation that returns or raises. *)
Inductive result (A : Type) : Type :=
| Ok (a : A)
| Raise (e : exn).
Arguments Ok {A} a.
Arguments Raise {A} e.

Definition bind {A B} (m : result A) (k : A -> result B) : result B :=
  match m with
  | Ok a => k a
  | Raise e => Raise e
  end.

Definition raised {A} (m : result A) : bool :=
  match m with Ok _ => false | Raise _ => true end.

(** [str]: a Python string is kept as its UTF-8 encoding, one [ascii] per
    byte, so that [s.encode()] is the identity.  The code point U+0000 is
    the only one whose encoding holds the byte 0. *)
Definition str := string.

(** The replacement character U+FFFD, UTF-8 encoded (EF BF BD). *)
Definition replacement_character : str :=
  String (ascii_of_nat 239) (String (ascii_of_nat 191)
    (String (ascii_of_nat 189) EmptyString)).

(** [s.replace(NUL, U+FFFD)]: every null character is replaced. *)
Fixpoint replace_nul (s : str) : str :=
  match s with
  | EmptyString => EmptyString
  | String c rest =>
      if Ascii.eqb c zero
      then (replacement_character ++ replace_nul rest)%string
      else String c (replace_nul rest)
  end.

(** *** [float]: IEEE 754 binary64, from the specification of floats of the
    standard library. *)
Definition prec : Z := 53.
Definition emax : Z := 1024.
Definition float := spec_float.

(** [float(n)] for an [int]: round to nearest even; an [int] beyond the
    range of binary64 raises. *)
Definition float_of_int (n : Z) : result float :=
  match binary_normalize prec emax n 0 false with
  | S754_infinity _ => Raise (OverflowError "int too large to convert to float")
  | f => Ok f
  end.

(** [a / b] on two [int]s (true division).  Both operands are converted
    and divided with one rounding, which is the correctly rounded quotient
    whenever both are below 2^53 in magnitude, as row counts are. *)
Definition truediv (a b : Z) : result float :=
  if b =? 0 then Raise (ValueError "division by zero")
  else
    bind (float_of_int a) (fun x =>
    bind (float_of_int b) (fun y =>
    Ok (SFdiv prec emax x y))).

(** [math.sqrt(n)] *)
Definition math_sqrt (n : Z) : result float :=
  bind (float_of_int n) (fun x =>
    match x with
    | S754_finite true _ _ => Raise (ValueError "math domain error")
    | _ => Ok (SFsqrt prec emax x)
    end).

(** [int(f)]: truncation toward zero. *)
Definition int_of_float (f : float) : result Z :=
  match f with
  | S754_zero _ => Ok 0
  | S754_finite s m e =>
      let magnitude :=
        match e with
        | Z0 => Zpos m
        | Zpos p => Zpos m * 2 ^ Zpos p
        | Zneg p => Zpos m / 2 ^ Zpos p
        end in
      Ok (if s then - magnitude else magnitude)
  | S754_infinity _ => Raise (OverflowError "cannot convert float infinity to integer")
  | S754_nan => Raise (ValueError "cannot convert float NaN to integer")
  end.

(** The names bound at module level in [pgvector.py]: its imports and its
    three classes.  A name that is neither here nor a builtin is unbound. *)
Definition module_globals : list string :=
  [ "md5"; "Optional"; "List"; "Union"; "Dict"; "Any"; "BaseModel"; "tqdm";
    "postgresql"; "create_engine"; "Engine"; "inspect"; "Session";
    "sessionmaker"; "MetaData"; "Table"; "Column"; "text"; "func"; "select";
    "DateTime"; "String"; "Vector"; "Document"; "Emb"; "VectorDb";
    "Distance"; "OpenAIEmb"; "Ivfflat"; "HNSW"; "PgVector" ].

(** Evaluating a global name. *)
Definition load_global (name : string) : result unit :=
  if existsb (String.eqb name) module_globals
  then Ok tt
  else Raise (NameError name).

End Py.
Export Py.

Declare Scope py_scope.
Delimit Scope py_scope with py.
Notation "x <- m ;; k" := (bind m (fun x => k))
  (at level 61, m at next level, right associativity) : py_scope.
Notation "m ;;; k" := (bind m (fun _ => k))
  (at level 61, right associativity) : py_scope.
Open Scope py_scope.

(* ================================================================== *)
(** ** Data model *)
(* ================================================================== *)

(** An open key-value mapping ([meta_data], [usage]); kept in order. *)
Definition jsonb := list (string * string).

(** An embedding: a sequence of floats. *)
Definition vector := list float.

(** The document object, an external collaborator.  Its fields are those the
    module reads and writes: [id] (optional), [name], [meta_data],
    [content], [embedding], [usage]. *)
Record Document : Type := mkDocument {
  doc_id : option str;
  doc_name : option str;
  doc_meta_data : jsonb;
  doc_content : str;
  doc_embedding : option vector;
  doc_usage : option jsonb
}.

(** The embedding provider: a declared dimensionality and
    [get_embedding], which answers a vector or nothing. *)
Record Emb : Type := mkEmb {
  emb_dimensions : Z;
  get_embedding : str -> option vector
}.

(** Modelled from the spec: [Document.embed(embedder)] is defined outside
    this module; it populates [embedding] in place from the provider before
    a write, and a provider that gives nothing fails the write path. *)
Definition Document_embed (embedder : Emb) (d : Document) : result Document :=
  match get_embedding embedder (doc_content d) with
  | Some v =>
      Ok {| doc_id := doc_id d; doc_name := doc_name d;
            doc_meta_data := doc_meta_data d; doc_content := doc_content d;
            doc_embedding := Some v; doc_usage := doc_usage d |}
  | None => Raise EmbeddingError
  end.

(** [Distance], declared in [vectordb/base.py]: the three metrics. *)
Inductive Distance : Type := cosine | l2 | max_inner_product.

Definition Distance_eqb (a b : Distance) : bool :=
  match a, b with
  | cosine, cosine | l2, l2 | max_inner_product, max_inner_product => true
  | _, _ => false
  end.

(** [class Ivfflat(BaseModel)] *)
Record Ivfflat : Type := mkIvfflat {
  ivf_name : option string;
  lists : Z;
  probes : Z;
  dynamic_lists : bool;
  ivf_configuration : list (string * string)
}.

(** [class HNSW(BaseModel)] *)
Record HNSW : Type := mkHNSW {
  hnsw_name : option string;
  m : Z;
  ef_search : Z;
  ef_construction : Z;
  hnsw_configuration : list (string * string)
}.

Definition default_configuration : list (string * string) :=
  [("maintenance_work_mem", "2GB")].

Definition Ivfflat_default : Ivfflat :=
  {| ivf_name := None; lists := 100; probes := 10; dynamic_lists := true;
     ivf_configuration := default_configuration |}.

Definition HNSW_default : HNSW :=
  {| hnsw_name := None; m := 16; ef_search := 5; ef_construction := 200;
     hnsw_configuration := default_configuration |}.

(** [Optional[Union[Ivfflat, HNSW]]] *)
Inductive Index : Type :=
| IvfflatIndex (i : Ivfflat)
| HNSWIndex (h : HNSW).

(** The attributes of a [PgVector] object that its methods read. *)
Record PgVector : Type := mkPgVector {
  collection : string;
  schema : option string;
  embedder : Emb;
  distance : Distance;
  index : option Index
}.

(** [self.dimensions = self.embedder.dimensions] *)
Definition dimensions (self : PgVector) : Z := emb_dimensions (embedder self).

(** *** The backing table, [get_table] *)

Inductive column : Type :=
| c_id | c_name | c_meta_data | c_content | c_embedding | c_usage
| c_created_at | c_updated_at | c_content_hash.

Definition column_name (c : column) : string :=
  match c with
  | c_id => "id" | c_name => "name" | c_meta_data => "meta_data"
  | c_content => "content" | c_embedding => "embedding" | c_usage => "usage"
  | c_created_at => "created_at" | c_updated_at => "updated_at"
  | c_content_hash => "content_hash"
  end.

Definition table_columns : list column :=
  [c_id; c_name; c_meta_data; c_content; c_embedding; c_usage;
   c_created_at; c_updated_at; c_content_hash].

Definition column_eqb (a b : column) : bool :=
  String.eqb (column_name a) (column_name b).

(** The column called [key], if the table has one. *)
Definition column_of_name (key : string) : option column :=
  find (fun c => String.eqb (column_name c) key) table_columns.

(** One stored row.  [id] is the primary key; every other column is
    nullable, [created_at] defaults to the time of the insert and
    [updated_at] has no insert default. *)
Record Row : Type := mkRow {
  row_id : str;
  row_name : option str;
  row_meta_data : jsonb;
  row_content : str;
  row_embedding : option vector;
  row_usage : option jsonb;
  row_created_at : Z;
  row_updated_at : option Z;
  row_content_hash : str
}.

(** The state of the relational engine as far as one collection sees it. *)
Record Database : Type := mkDatabase {
  db_online : bool;                  (* connections are accepted *)
  db_ddl_allowed : bool;             (* CREATE EXTENSION / SCHEMA / TABLE are accepted *)
  db_extension : bool;               (* the vector extension is installed *)
  db_schemas : list string;          (* the namespaces that exist *)
  db_table : option (list Row);      (* the collection's table, if it exists *)
  db_now : Z                         (* the engine's clock *)
}.

Definition set_table (db : Database) (t : option (list Row)) : Database :=
  {| db_online := db_online db; db_ddl_allowed := db_ddl_allowed db;
     db_extension := db_extension db; db_schemas := db_schemas db;
     db_table := t; db_now := db_now db |}.

(** *** Values that cross the SQL boundary *)

(** A cell of a row, a filter value ([Any]) or a bound parameter. *)
Inductive pyvalue : Type :=
| PyNone
| PyStr (s : str)
| PyInt (z : Z)
| PyDict (d : jsonb)
| PyList (v : vector).

Definition option_str (o : option str) : pyvalue :=
  match o with Some s => PyStr s | None => PyNone end.

Fixpoint jsonb_eqb (a b : jsonb) : bool :=
  match a, b with
  | [], [] => true
  | (k, v) :: a', (k', v') :: b' =>
      String.eqb k k' && String.eqb v v' && jsonb_eqb a' b'
  | _, _ => false
  end.

Fixpoint vector_eqb (a b : vector) : bool :=
  match a, b with
  | [], [] => true
  | x :: a', y :: b' => SFeqb x y && vector_eqb a' b'
  | _, _ => false
  end.

Definition pyvalue_eqb (a b : pyvalue) : bool :=
  match a, b with
  | PyNone, PyNone => true
  | PyStr s, PyStr t => String.eqb s t
  | PyInt x, PyInt y => x =? y
  | PyDict d, PyDict e => jsonb_eqb d e
  | PyList v, PyList w => vector_eqb v w
  | _, _ => false
  end.

(** The value of column [c] in row [r]; SQL NULL is [PyNone]. *)
Definition cell (c : column) (r : Row) : pyvalue :=
  match c with
  | c_id => PyStr (row_id r)
  | c_name => option_str (row_name r)
  | c_meta_data => PyDict (row_meta_data r)
  | c_content => PyStr (row_content r)
  | c_embedding => match row_embedding r with Some v => PyList v | None => PyNone end
  | c_usage => match row_usage r with Some u => PyDict u | None => PyNone end
  | c_created_at => PyInt (row_created_at r)
  | c_updated_at => match row_updated_at r with Some t => PyInt t | None => PyNone end
  | c_content_hash => PyStr (row_content_hash r)
  end.

(** *** Statements *)

(** The two ordering expressions that [search] uses. *)
Inductive order_expr : Type :=
| e_max_inner_product (query_embedding : vector)
| e_cosine_distance (query_embedding : vector).

(** A [where] criterion: [column == value], or a Python boolean that
    SQLAlchemy coerces to the SQL constant. *)
Inductive criterion : Type :=
| w_eq (c : column) (value : pyvalue)
| w_const (b : bool).

(** A select statement: columns, [where] criteria, [order_by]
    expressions and [limit]. *)
Record Select : Type := mkSelect {
  sel_columns : list column;
  sel_where : list criterion;
  sel_order_by : list order_expr;
  sel_limit : option Z
}.

Definition select (columns : list column) : Select :=
  {| sel_columns := columns; sel_where := []; sel_order_by := [];
     sel_limit := None |}.

Definition where_ (stmt : Select) (w : criterion) : Select :=
  {| sel_columns := sel_columns stmt; sel_where := sel_where stmt ++ [w];
     sel_order_by := sel_order_by stmt; sel_limit := sel_limit stmt |}.

Definition order_by (stmt : Select) (e : order_expr) : Select :=
  {| sel_columns := sel_columns stmt; sel_where := sel_where stmt;
     sel_order_by := sel_order_by stmt ++ [e]; sel_limit := sel_limit stmt |}.

Definition limit_ (stmt : Select) (n : Z) : Select :=
  {| sel_columns := sel_columns stmt; sel_where := sel_where stmt;
     sel_order_by := sel_order_by stmt; sel_limit := Some n |}.

(** [postgresql.insert(table).values(..)], with the optional
    [on_conflict_do_update(index_elements, set_)]; [set_] lists the columns
    assigned from the excluded (proposed) row. *)
Record Insert : Type := mkInsert {
  ins_id : str;
  ins_name : option str;
  ins_meta_data : jsonb;
  ins_content : str;
  ins_embedding : option vector;
  ins_usage : option jsonb;
  ins_content_hash : str;
  ins_on_conflict : option (list column * list column)
}.

(** The statements that [optimize] sends as text. *)
Inductive ddl : Type :=
| SetConfig (key value : string)
| SetProbes (probes : Z)
| CreateIvfflatIndex (name opclass : string) (lists : Z)
| CreateHnswIndex (name opclass : string) (m ef_construction : Z).

(** One row returned by a select: the selected columns only. *)
Definition Neighbor := list (column * pyvalue).

Definition project (columns : list column) (r : Row) : Neighbor :=
  map (fun c => (c, cell c r)) columns.

(** [neighbor.<column>] *)
Definition field (n : Neighbor) (c : column) : pyvalue :=
  match find (fun cv => column_eqb (fst cv) c) n with
  | Some cv => snd cv
  | None => PyNone
  end.

(** A session: the committed database, the view of the table inside the
    open transaction, and the number of commits made so far. *)
Record Session : Type := mkSession {
  sess_db : Database;
  sess_rows : option (list Row);
  sess_commits : nat
}.

(** What a call that writes leaves behind: the database after the session
    is closed (uncommitted work is rolled back), the commits made, and the
    exception that ended the call, if any. *)
Record Outcome : Type := mkOutcome {
  final : Database;
  commits : nat;
  error : option exn
}.

(* ================================================================== *)
(** ** The methods of [PgVector] *)
(* ================================================================== *)

Section Model.

(** [md5(b).hexdigest()], from [hashlib]. *)
Variable md5_hexdigest : str -> str.

(** [hasattr(self.table.c, key)] for a [key] that names no column: the
    attributes that the column collection object carries itself. *)
Variable collection_attr : string -> bool.

(** The value of an ordering expression on a row; smaller comes first. *)
Variable proximity : order_expr -> Row -> Z.

(** *** Sessions and statement execution *)

Definition Session_open (db : Database) : Session :=
  {| sess_db := db; sess_rows := db_table db; sess_commits := 0 |}.

(** [sess.commit()] *)
Definition commit (sess : Session) : Session :=
  {| sess_db := set_table (sess_db sess) (sess_rows sess);
     sess_rows := sess_rows sess;
     sess_commits := S (sess_commits sess) |}.

(** The rows a statement on the table sees, or why it cannot run. *)
Definition visible_rows (online : bool) (t : option (list Row)) : result (list Row) :=
  if online then
    match t with
    | Some rows => Ok rows
    | None => Raise (ProgrammingError "relation does not exist")
    end
  else Raise OperationalError.

(** The row an insert proposes (the excluded row of a conflict). *)
Definition proposed_row (stmt : Insert) (now : Z) : Row :=
  {| row_id := ins_id stmt; row_name := ins_name stmt;
     row_meta_data := ins_meta_data stmt; row_content := ins_content stmt;
     row_embedding := ins_embedding stmt; row_usage := ins_usage stmt;
     row_created_at := now; row_updated_at := None;
     row_content_hash := ins_content_hash stmt |}.

(** [SET c = excluded.c] on one row. *)
Definition assign (excluded : Row) (r : Row) (c : column) : Row :=
  match c with
  | c_id => mkRow (row_id excluded) (row_name r) (row_meta_data r) (row_content r)
              (row_embedding r) (row_usage r) (row_created_at r) (row_updated_at r)
              (row_content_hash r)
  | c_name => mkRow (row_id r) (row_name excluded) (row_meta_data r) (row_content r)
              (row_embedding r) (row_usage r) (row_created_at r) (row_updated_at r)
              (row_content_hash r)
  | c_meta_data => mkRow (row_id r) (row_name r) (row_meta_data excluded) (row_content r)
              (row_embedding r) (row_usage r) (row_created_at r) (row_updated_at r)
              (row_content_hash r)
  | c_content => mkRow (row_id r) (row_name r) (row_meta_data r) (row_content excluded)
              (row_embedding r) (row_usage r) (row_created_at r) (row_updated_at r)
              (row_content_hash r)
  | c_embedding => mkRow (row_id r) (row_name r) (row_meta_data r) (row_content r)
              (row_embedding excluded) (row_usage r) (row_created_at r) (row_updated_at r)
              (row_content_hash r)
  | c_usage => mkRow (row_id r) (row_name r) (row_meta_data r) (row_content r)
              (row_embedding r) (row_usage excluded) (row_created_at r) (row_updated_at r)
              (row_content_hash r)
  | c_created_at => mkRow (row_id r) (row_name r) (row_meta_data r) (row_content r)
              (row_embedding r) (row_usage r) (row_created_at excluded) (row_updated_at r)
              (row_content_hash r)
  | c_updated_at => mkRow (row_id r) (row_name r) (row_meta_data r) (row_content r)
              (row_embedding r) (row_usage r) (row_created_at r) (row_updated_at excluded)
              (row_content_hash r)
  | c_content_hash => mkRow (row_id r) (row_name r) (row_meta_data r) (row_content r)
              (row_embedding r) (row_usage r) (row_created_at r) (row_updated_at r)
              (row_content_hash excluded)
  end.

(** [DO UPDATE SET ...] on the conflicting row. *)
Definition do_update (set_ : list column) (excluded : Row) (r : Row) : Row :=
  fold_left (assign excluded) set_ r.

(** The vector column is sized to the collection's dimensionality: a
    vector of another length is rejected by the engine. *)
Definition fits (dims : Z) (e : option vector) : bool :=
  match e with
  | Some v => Z.of_nat (List.length v) =? dims
  | None => true
  end.

Definition has_id (id : str) (r : Row) : bool := String.eqb (row_id r) id.

(** The engine's side of an insert statement: the rows of the table in
    the transaction after it, or the error it is refused with. *)
Definition run_insert (self : PgVector) (stmt : Insert) (online : bool) (now : Z)
           (t : option (list Row)) : result (list Row) :=
  rows <- visible_rows online t ;;
  if negb (fits (dimensions self) (ins_embedding stmt))
  then Raise (DataError "expected another number of dimensions")
  else
    let excluded := proposed_row stmt now in
    if existsb (has_id (ins_id stmt)) rows then
      match ins_on_conflict stmt with
      | Some (_, set_) =>
          Ok (map (fun r => if has_id (ins_id stmt) r
                            then do_update set_ excluded r
                            else r) rows)
      | None => Raise (IntegrityError (ins_id stmt))
      end
    else Ok (rows ++ [excluded]).

(** [sess.execute(stmt)] for an insert statement. *)
Definition execute_insert (self : PgVector) (stmt : Insert) (sess : Session)
  : result Session :=
  rows <- run_insert self stmt (db_online (sess_db sess)) (db_now (sess_db sess))
                     (sess_rows sess) ;;
  Ok {| sess_db := sess_db sess;
        sess_rows := Some rows;
        sess_commits := sess_commits sess |}.

(** [w] holds on row [r]; [column == None] is rendered [IS NULL]. *)
Definition holds (r : Row) (w : criterion) : bool :=
  match w with
  | w_eq c value => pyvalue_eqb (cell c r) value
  | w_const b => b
  end.

(** [a] comes no later than [b] under the ordering expressions. *)
Fixpoint precedes (es : list order_expr) (a b : Row) : bool :=
  match es with
  | [] => true
  | e :: es' =>
      if proximity e a <? proximity e b then true
      else if proximity e b <? proximity e a then false
      else precedes es' a b
  end.

Fixpoint insert_sorted (es : list order_expr) (r : Row) (sorted : list Row) : list Row :=
  match sorted with
  | [] => [r]
  | x :: rest =>
      if precedes es x r then x :: insert_sorted es r rest
      else r :: x :: rest
  end.

Definition sort_rows (es : list order_expr) (rows : list Row) : list Row :=
  fold_left (fun acc r => insert_sorted es r acc) rows [].

(** [sess.execute(stmt).fetchall()] for a select statement. *)
Definition execute_select (stmt : Select) (rows : list Row) : result (list Neighbor) :=
  let matching := filter (fun r => forallb (holds r) (sel_where stmt)) rows in
  let ordered := sort_rows (sel_order_by stmt) matching in
  match sel_limit stmt with
  | Some n =>
      if n <? 0 then Raise (DataError "LIMIT must not be negative")
      else Ok (map (project (sel_columns stmt)) (firstn (Z.to_nat n) ordered))
  | None => Ok (map (project (sel_columns stmt)) ordered)
  end.

(** *** Schema *)

(** [inspect(self.db_engine).has_table(..)] *)
Definition has_table (db : Database) : result bool :=
  if db_online db
  then Ok (match db_table db with Some _ => true | None => false end)
  else Raise OperationalError.

(** [table_exists]: the handler evaluates [logger.error(e)] before it
    returns [False]. *)
Definition table_exists (self : PgVector) (db : Database) : result bool :=
  match has_table db with
  | Ok b => Ok b
  | Raise e => load_global "logger" ;;; Ok false
  end.

Definition create_extension (db : Database) : result Database :=
  if db_extension db then Ok db
  else if db_ddl_allowed db then
    Ok {| db_online := db_online db; db_ddl_allowed := db_ddl_allowed db;
          db_extension := true; db_schemas := db_schemas db;
          db_table := db_table db; db_now := db_now db |}
  else Raise (ProgrammingError "permission denied to create extension").

Definition create_schema (name : string) (db : Database) : result Database :=
  if existsb (String.eqb name) (db_schemas db) then Ok db
  else if db_ddl_allowed db then
    Ok {| db_online := db_online db; db_ddl_allowed := db_ddl_allowed db;
          db_extension := db_extension db; db_schemas := name :: db_schemas db;
          db_table := db_table db; db_now := db_now db |}
  else Raise (ProgrammingError "permission denied to create schema").

(** [self.table.create(self.db_engine)] *)
Definition create_table (db : Database) : result Database :=
  if negb (db_online db) then Raise OperationalError
  else match db_table db with
       | Some _ => Raise (ProgrammingError "relation already exists")
       | None =>
           if db_ddl_allowed db && db_extension db
           then Ok (set_table db (Some []))
           else Raise (ProgrammingError "cannot create table")
       end.

(** [create] *)
Definition create (self : PgVector) (db : Database) : result Database :=
  present <- table_exists self db ;;
  if negb present then
    (if db_online db then Ok tt else Raise OperationalError) ;;;
    db <- create_extension db ;;
    db <- match schema self with
          | Some name => create_schema name db
          | None => Ok db
          end ;;
    create_table db
  else Ok db.

(** [exists] *)
Definition exists_ (self : PgVector) (db : Database) : result bool :=
  table_exists self db.

(** [delete] *)
Definition delete (self : PgVector) (db : Database) : result Database :=
  present <- table_exists self db ;;
  if present then Ok (set_table db None) else Ok db.

(** [clear] *)
Definition clear (self : PgVector) (db : Database) : result (bool * Database) :=
  _ <- visible_rows (db_online db) (db_table db) ;;
  Ok (true, set_table db (Some [])).

(** *** Existence and count queries *)

(** [doc_exists] *)
Definition doc_exists (self : PgVector) (document : Document) (db : Database)
  : result bool :=
  rows <- visible_rows (db_online db) (db_table db) ;;
  let cleaned_content := replace_nul (doc_content document) in
  let matching :=
    filter (fun r => String.eqb (row_content_hash r) (md5_hexdigest cleaned_content))
           rows in
  Ok (match hd_error matching with Some _ => true | None => false end).

(** [name_exists] *)
Definition name_exists (self : PgVector) (name : str) (db : Database) : result bool :=
  rows <- visible_rows (db_online db) (db_table db) ;;
  let matching := filter (fun r => pyvalue_eqb (cell c_name r) (PyStr name)) rows in
  Ok (match hd_error matching with Some _ => true | None => false end).

(** [id_exists] *)
Definition id_exists (self : PgVector) (id : str) (db : Database) : result bool :=
  rows <- visible_rows (db_online db) (db_table db) ;;
  let matching := filter (has_id id) rows in
  Ok (match hd_error matching with Some _ => true | None => false end).

(** [select(func.count(self.table.c.name)).select_from(self.table)]: the
    aggregate counts the rows whose [name] is not NULL, and the statement
    always yields one value. *)
Definition count_name (rows : list Row) : Z :=
  Z.of_nat (List.length
    (filter (fun r => negb (pyvalue_eqb (cell c_name r) PyNone)) rows)).

(** [int(result)] if a value came back, [0] otherwise. *)
Definition count_of_scalar (result : option Z) : Z :=
  match result with
  | Some v => v
  | None => 0
  end.

(** [get_count] *)
Definition get_count (self : PgVector) (db : Database) : result Z :=
  rows <- visible_rows (db_online db) (db_table db) ;;
  let result := Some (count_name rows) in
  Ok (count_of_scalar result).

(** *** Writes *)

(** [a or b] on an optional string: [None] and the empty string are
    falsy. *)
Definition str_or (a : option str) (b : str) : str :=
  match a with
  | Some s => if String.eqb s "" then b else s
  | None => b
  end.

(** The body of the loop of [insert] up to the statement. *)
Definition insert_statement (self : PgVector) (document : Document) : result Insert :=
  document <- Document_embed (embedder self) document ;;
  let cleaned_content := replace_nul (doc_content document) in
  let content_hash := md5_hexdigest cleaned_content in
  let _id := str_or (doc_id document) content_hash in
  Ok {| ins_id := _id;
        ins_name := doc_name document;
        ins_meta_data := doc_meta_data document;
        ins_content := cleaned_content;
        ins_embedding := doc_embedding document;
        ins_usage := doc_usage document;
        ins_content_hash := content_hash;
        ins_on_conflict := None |}.

(** The body of the loop of [upsert] up to the statement: the same values,
    then [on_conflict_do_update] on [id]. *)
Definition upsert_statement (self : PgVector) (document : Document) : result Insert :=
  stmt <- insert_statement self document ;;
  Ok {| ins_id := ins_id stmt;
        ins_name := ins_name stmt;
        ins_meta_data := ins_meta_data stmt;
        ins_content := ins_content stmt;
        ins_embedding := ins_embedding stmt;
        ins_usage := ins_usage stmt;
        ins_content_hash := ins_content_hash stmt;
        ins_on_conflict :=
          Some ([c_id],
                [c_name; c_meta_data; c_content; c_embedding; c_usage;
                 c_content_hash]) |}.

(** One round of the loop: build the statement and execute it. *)
Definition stage (statement : PgVector -> Document -> result Insert)
           (self : PgVector) (document : Document) (sess : Session) : result Session :=
  stmt <- statement self document ;;
  execute_insert self stmt sess.

(** The loop shared, word for word, by [insert] and [upsert]: stage a
    document, count it, commit when the counter reaches [batch_size];
    after the loop commit what remains.  An exception leaves the loop with
    the session as it was. *)
Fixpoint write_loop (statement : PgVector -> Document -> result Insert)
         (self : PgVector) (documents : list Document) (batch_size counter : Z)
         (sess : Session) : Session * option exn :=
  match documents with
  | [] => (if 0 <? counter then commit sess else sess, None)
  | document :: rest =>
      match stage statement self document sess with
      | Raise e => (sess, Some e)
      | Ok sess =>
          let counter := counter + 1 in
          if batch_size <=? counter
          then write_loop statement self rest batch_size 0 (commit sess)
          else write_loop statement self rest batch_size counter sess
      end
  end.

(** Leaving [with self.Session() as sess]: what was not committed is
    rolled back. *)
Definition close (run : Session * option exn) : Outcome :=
  {| final := sess_db (fst run);
     commits := sess_commits (fst run);
     error := snd run |}.

(** [insert] *)
Definition insert (self : PgVector) (documents : list Document) (batch_size : Z)
           (db : Database) : Outcome :=
  close (write_loop insert_statement self documents batch_size 0 (Session_open db)).

(** [upsert_available] *)
Definition upsert_available (self : PgVector) : bool := true.

(** [upsert] *)
Definition upsert (self : PgVector) (documents : list Document) (batch_size : Z)
           (db : Database) : Outcome :=
  close (write_loop upsert_statement self documents batch_size 0 (Session_open db)).

(** *** Search *)

(** [hasattr(self.table.c, key)] *)
Definition hasattr_c (key : string) : bool :=
  match column_of_name key with
  | Some _ => true
  | None => collection_attr key
  end.

(** [getattr(self.table.c, key) == value]: a comparison of the column, or,
    for an attribute that is no column, the Python value [False]. *)
Definition getattr_c_eq (key : string) (value : pyvalue) : criterion :=
  match column_of_name key with
  | Some c => w_eq c value
  | None => w_const false
  end.

Definition apply_filters (stmt : Select) (filters : option (list (string * pyvalue)))
  : Select :=
  match filters with
  | Some items =>
      fold_left (fun stmt kv =>
                   if hasattr_c (fst kv)
                   then where_ stmt (getattr_c_eq (fst kv) (snd kv))
                   else stmt)
                items stmt
  | None => stmt
  end.

Definition apply_distance (self : PgVector) (query_embedding : vector) (stmt : Select)
  : Select :=
  let stmt := if Distance_eqb (distance self) l2
              then order_by stmt (e_max_inner_product query_embedding) else stmt in
  let stmt := if Distance_eqb (distance self) cosine
              then order_by stmt (e_cosine_distance query_embedding) else stmt in
  let stmt := if Distance_eqb (distance self) max_inner_product
              then order_by stmt (e_max_inner_product query_embedding) else stmt in
  stmt.

(** The statement of [search]. *)
Definition search_statement (self : PgVector) (query_embedding : vector) (limit : Z)
           (filters : option (list (string * pyvalue))) : Select :=
  let columns := [c_name; c_meta_data; c_content; c_embedding; c_usage] in
  let stmt := select columns in
  let stmt := apply_filters stmt filters in
  let stmt := apply_distance self query_embedding stmt in
  limit_ stmt limit.

(** The session parameter set before the query, [SET LOCAL ..]. *)
Definition search_parameter (self : PgVector) : option (string * Z) :=
  match index self with
  | Some (IvfflatIndex i) => Some ("ivfflat.probes", probes i)
  | Some (HNSWIndex h) => Some ("hnsw.ef_search", ef_search h)
  | None => None
  end.

(** The [try] block of [search]: the scan is exact, the session parameter
    changes the recall of an approximate index only. *)
Definition fetch_neighbors (self : PgVector) (stmt : Select) (db : Database)
  : result (list Neighbor) :=
  rows <- visible_rows (db_online db) (db_table db) ;;
  let _ := search_parameter self in
  execute_select stmt rows.

(** [Document(name=.., meta_data=.., content=.., embedder=..,
    embedding=.., usage=..)] from a returned row; [id] keeps its default. *)
Definition document_of_neighbor (neighbor : Neighbor) : Document :=
  {| doc_id := None;
     doc_name := match field neighbor c_name with PyStr s => Some s | _ => None end;
     doc_meta_data := match field neighbor c_meta_data with PyDict d => d | _ => [] end;
     doc_content := match field neighbor c_content with PyStr s => s | _ => "" end;
     doc_embedding := match field neighbor c_embedding with PyList v => Some v | _ => None end;
     doc_usage := match field neighbor c_usage with PyDict d => Some d | _ => None end |}.

(** [search]: the documents returned and the database afterwards. *)
Definition search (self : PgVector) (query : str) (limit : Z)
           (filters : option (list (string * pyvalue))) (db : Database)
  : result (list Document * Database) :=
  match get_embedding (embedder self) query with
  | None => Ok ([], db)
  | Some query_embedding =>
      let stmt := search_statement self query_embedding limit filters in
      match fetch_neighbors self stmt db with
      | Raise e =>
          db <- create self db ;;
          Ok ([], db)
      | Ok neighbors =>
          Ok (map document_of_neighbor neighbors, db)
      end
  end.

(** *** Index *)

(** The list count computed in the [Ivfflat] branch of [optimize]. *)
Definition num_lists (i : Ivfflat) (count : result Z) : result Z :=
  let num_lists := lists i in
  if dynamic_lists i then
    total_records <- count ;;
    if total_records <? 1000000 then
      q <- truediv total_records 1000 ;; int_of_float q
    else if 1000000 <? total_records then
      r <- math_sqrt total_records ;; int_of_float r
    else Ok num_lists
  else Ok num_lists.

Definition index_name (self : PgVector) (i : Index) : string :=
  let name := match i with IvfflatIndex i => ivf_name i | HNSWIndex h => hnsw_name h end in
  match name with
  | Some n => n
  | None =>
      let _type := match i with IvfflatIndex _ => "ivfflat" | HNSWIndex _ => "hnsw" end in
      (collection self ++ "_" ++ _type ++ "_index")%string
  end.

Definition index_distance (self : PgVector) : string :=
  let index_distance := "vector_cosine_ops" in
  let index_distance := if Distance_eqb (distance self) l2
                        then "vector_l2_ops" else index_distance in
  let index_distance := if Distance_eqb (distance self) max_inner_product
                        then "vector_ip_ops" else index_distance in
  index_distance.

(** [optimize]: the statements sent to the engine, in order. *)
Definition optimize (self : PgVector) (db : Database) : result (list ddl) :=
  match index self with
  | None => Ok []
  | Some idx =>
      let name := index_name self idx in
      let opclass := index_distance self in
      match idx with
      | IvfflatIndex i =>
          n <- num_lists i (get_count self db) ;;
          (if db_online db then Ok tt else Raise OperationalError) ;;;
          Ok (map (fun kv => SetConfig (fst kv) (snd kv)) (ivf_configuration i)
              ++ [SetProbes (probes i); CreateIvfflatIndex name opclass n])
      | HNSWIndex h =>
          (if db_online db then Ok tt else Raise OperationalError) ;;;
          Ok (map (fun kv => SetConfig (fst kv) (snd kv)) (hnsw_configuration h)
              ++ [CreateHnswIndex name opclass (m h) (ef_construction h)])
      end
  end.

End Model.

(* ================================================================== *)
(** ** Notions used to state the properties *)
(* ================================================================== *)

(** The view of the table after one round of the write loop on it. *)
Definition staged (statement : PgVector -> Document -> result Insert)
           (self : PgVector) (db : Database) (t : option (list Row)) (d : Document)
  : result (option (list Row)) :=
  stmt <- statement self d ;;
  rows <- run_insert self stmt (db_online db) (db_now db) t ;;
  Ok (Some rows).

(** The view after the rounds for [docs], in order, with no commit between. *)
Fixpoint staged_all (statement : PgVector -> Document -> result Insert)
         (self : PgVector) (db : Database) (docs : list Document)
         (t : option (list Row)) : result (option (list Row)) :=
  match docs with
  | [] => Ok t
  | d :: rest =>
      t' <- staged statement self db t d ;;
      staged_all statement self db rest t'
  end.

(** A row after [DO UPDATE]: key and timestamps kept, the rest replaced. *)
Definition replaced (stmt : Insert) (r : Row) : Row :=
  {| row_id := row_id r;
     row_name := ins_name stmt;
     row_meta_data := ins_meta_data stmt;
     row_content := ins_content stmt;
     row_embedding := ins_embedding stmt;
     row_usage := ins_usage stmt;
     row_created_at := row_created_at r;
     row_updated_at := row_updated_at r;
     row_content_hash := ins_content_hash stmt |}.

(** The document that [search] builds from a stored row. *)
Definition document_of_row (r : Row) : Document :=
  {| doc_id := None;
     doc_name := row_name r;
     doc_meta_data := row_meta_data r;
     doc_content := row_content r;
     doc_embedding := row_embedding r;
     doc_usage := row_usage r |}.

(** The criteria that one entry of [filters] adds to the statement. *)
Definition criteria_of (collection_attr : string -> bool) (kv : string * pyvalue)
  : list criterion :=
  match column_of_name (fst kv) with
  | Some c => [w_eq c (snd kv)]
  | None => if collection_attr (fst kv) then [w_const false] else []
  end.

(** The ordering expression that [search] takes for a metric. *)
Definition ordering_of (d : Distance) (query_embedding : vector) : order_expr :=
  match d with
  | cosine => e_cosine_distance query_embedding
  | l2 | max_inner_product => e_max_inner_product query_embedding
  end.

(** [ceil(n / b)] on integers. *)
Definition ceil_div (n b : Z) : Z := (n + b - 1) / b.

(** The batch law of a writing call that ended in [out]: if every round
    succeeds there are [ceil(N / B)] commits and the table holds the view
    after all documents; if the round of [d] is the first that fails, after
    the documents [pre], the commits are the [k = |pre| / B] full batches
    before it and the table holds the view after the first [k * B]
    documents. *)
Definition commits_in_batches (statement : PgVector -> Document -> result Insert)
           (self : PgVector) (docs : list Document) (batch_size : Z) (db : Database)
           (out : Outcome) : Prop :=
  (forall t,
      staged_all statement self db docs (db_table db) = Ok t ->
      error out = None /\
      Z.of_nat (commits out) = ceil_div (Z.of_nat (List.length docs)) batch_size /\
      db_table (final out) = t) /\
  (forall pre d post t e,
      docs = pre ++ d :: post ->
      staged_all statement self db pre (db_table db) = Ok t ->
      staged statement self db t d = Raise e ->
      let k := Z.of_nat (List.length pre) / batch_size in
      error out = Some e /\
      Z.of_nat (commits out) = k /\
      staged_all statement self db (firstn (Z.to_nat (batch_size * k)) pre) (db_table db)
      = Ok (db_table (final out))).

(** The columns that [upsert] assigns on a conflict. *)
Definition upsert_set : list column :=
  [c_name; c_meta_data; c_content; c_embedding; c_usage; c_content_hash].

(** The values of a statement are those of the document [d], with the
    content normalised, the embedding [v] of the provider and the digest
    [h] of the normalised content. *)
Definition values_of (d : Document) (v : vector) (h : str) (stmt : Insert) : Prop :=
  ins_id stmt = str_or (doc_id d) h /\
  ins_name stmt = doc_name d /\
  ins_meta_data stmt = doc_meta_data d /\
  ins_content stmt = replace_nul (doc_content d) /\
  ins_embedding stmt = Some v /\
  ins_usage stmt = doc_usage d /\
  ins_content_hash stmt = h.

(** The string holds no null character. *)
Fixpoint no_nul (s : str) : bool :=
  match s with
  | EmptyString => true
  | String c rest => negb (Ascii.eqb c zero) && no_nul rest
  end.

(** The identity under which [insert] and [upsert] store a document: its
    own id when it has a non-empty one, the digest of its normalised content
    otherwise. *)
Definition identity (md5_hexdigest : str -> str) (d : Document) : str :=
  str_or (doc_id d) (md5_hexdigest (replace_nul (doc_content d))).

(** A row as the write paths leave it: the content holds no null
    character, the content hash is the digest of the stored content, and the
    embedding fits the vector column. *)
Definition clean_row (md5_hexdigest : str -> str) (self : PgVector) (r : Row) : Prop :=
  no_nul (row_content r) = true /\
  row_content_hash r = md5_hexdigest (row_content r) /\
  fits (dimensions self) (row_embedding r) = true.

(** What a conflict update leaves of a row: its key and its creation time. *)
Definition row_key (r : Row) : str * Z := (row_id r, row_created_at r).


(** The normalisation in the words of the specification: the characters
    of the content in order, each null character replaced by the three
    bytes of U+FFFD (EF BF BD), every other character kept. *)
Definition spec_normalized (s : str) : str :=
  string_of_list_ascii
    (flat_map (fun c => if Ascii.eqb c zero
                        then [ascii_of_nat 239; ascii_of_nat 191; ascii_of_nat 189]
                        else [c])
              (list_ascii_of_string s)).


(** [int(n / 1000)] is 0. *)
Definition sizes_to_zero (n : Z) : bool :=
  match (q <- truediv n 1000 ;; int_of_float q) with
  | Ok 0 => true
  | _ => false
  end.

(* ================================================================== *)
(** ** Concrete collections, databases and documents *)
(* ================================================================== *)

(** A stand-in digest for running the model: it only has to be a function. *)
Definition sample_digest (s : str) : str := ("md5:" ++ s)%string.

(** Attributes of the column collection object that are not columns: the
    attribute every Python object has, and the mapping methods of
    SQLAlchemy's [ColumnCollection]. *)
Definition sample_collection_attr (key : string) : bool :=
  existsb (String.eqb key) ["__class__"; "keys"; "values"; "items"; "get"].

(** Rows ranked by their insertion time. *)
Definition sample_proximity (e : order_expr) (r : Row) : Z := row_created_at r.

Definition sample_vector : vector := [S754_zero false; S754_zero false].

(** A provider of dimension 2 that has nothing to say about the empty
    text. *)
Definition sample_embedder : Emb :=
  {| emb_dimensions := 2;
     get_embedding := fun text => if String.eqb text "" then None else Some sample_vector |}.

Definition sample_collection : PgVector :=
  {| collection := "docs"; schema := Some "ai"; embedder := sample_embedder;
     distance := cosine; index := Some (HNSWIndex HNSW_default) |}.

(** A provider that declares three dimensions and answers with two. *)
Definition short_embedder : Emb :=
  {| emb_dimensions := 3; get_embedding := fun _ => Some sample_vector |}.

Definition mismatched_collection : PgVector :=
  {| collection := "docs"; schema := Some "ai"; embedder := short_embedder;
     distance := cosine; index := Some (HNSWIndex HNSW_default) |}.


(** A provisioned, empty collection. *)
Definition empty_db : Database :=
  {| db_online := true; db_ddl_allowed := true; db_extension := true;
     db_schemas := ["ai"]; db_table := Some []; db_now := 7 |}.

(** No table yet, and a role that may not create anything. *)
Definition locked_db : Database :=
  {| db_online := true; db_ddl_allowed := false; db_extension := false;
     db_schemas := []; db_table := None; db_now := 7 |}.

(** No table yet, creation allowed. *)
Definition cold_db : Database :=
  {| db_online := true; db_ddl_allowed := true; db_extension := false;
     db_schemas := []; db_table := None; db_now := 7 |}.

(** An engine that cannot be reached. *)
Definition offline_db : Database :=
  {| db_online := false; db_ddl_allowed := true; db_extension := true;
     db_schemas := ["ai"]; db_table := Some []; db_now := 7 |}.

Definition sample_document (name content : str) : Document :=
  {| doc_id := None; doc_name := Some name; doc_meta_data := [("k", "v")];
     doc_content := content; doc_embedding := None; doc_usage := None |}.

(** A stored row without a name. *)
Definition unnamed_row : Row :=
  {| row_id := "r1"; row_name := None; row_meta_data := [];
     row_content := "text"; row_embedding := Some sample_vector;
     row_usage := None; row_created_at := 1; row_updated_at := None;
     row_content_hash := "h1" |}.

Definition named_row : Row :=
  {| row_id := "r2"; row_name := Some "two"; row_meta_data := [];
     row_content := "more"; row_embedding := Some sample_vector;
     row_usage := None; row_created_at := 2; row_updated_at := None;
     row_content_hash := "h2" |}.

Definition db_with (rows : list Row) : Database := set_table empty_db (Some rows).

Definition two_rows_db : Database := db_with [named_row; unnamed_row].

Definition doc_a : Document := sample_document "a" "alpha".
Definition doc_b : Document := sample_document "b" "beta".
Definition doc_c : Document := sample_document "c" "gamma".

(** A document that the sample provider cannot embed. *)
Definition doc_unembeddable : Document := sample_document "x" "".

(** A document whose content holds a null character between two letters,
    and that content with the null character replaced by EF BF BD. *)
Definition doc_nul : Document :=
  sample_document "n" (String "a"%char (String zero "b")).

Definition content_nul_replaced : str :=
  String "a"%char
    (String (ascii_of_nat 239) (String (ascii_of_nat 191) (String (ascii_of_nat 189) "b"))).

(** The content of [doc_a] under another name. *)
Definition doc_a_renamed : Document := sample_document "z" "alpha".

(** The row that [insert] stores for [doc_a] in [empty_db]. *)
Definition row_a : Row :=
  {| row_id := "md5:alpha"; row_name := Some "a"; row_meta_data := [("k", "v")];
     row_content := "alpha"; row_embedding := Some sample_vector;
     row_usage := None; row_created_at := 7; row_updated_at := None;
     row_content_hash := "md5:alpha" |}.

(** The statement that [upsert] builds for [doc_a_renamed]. *)
Definition stmt_a_renamed : Insert :=
  {| ins_id := "md5:alpha"; ins_name := Some "z"; ins_meta_data := [("k", "v")];
     ins_content := "alpha"; ins_embedding := Some sample_vector;
     ins_usage := None; ins_content_hash := "md5:alpha";
     ins_on_conflict := Some ([c_id], upsert_set) |}.

(* ================================================================== *)
(** ** Properties *)
(* ================================================================== *)

(** *** Index sizing *)

Lemma num_lists_static (i : Ivfflat) (count : result Z) :
  dynamic_lists i = false -> num_lists i count = Ok (lists i).
Proof. intros H. unfold num_lists. now rewrite H. Qed.

Lemma num_lists_below_million (i : Ivfflat) (n : Z) :
  dynamic_lists i = true -> n < 1000000 ->
  num_lists i (Ok n) = (q <- truediv n 1000 ;; int_of_float q).
Proof.
  intros H Hn. unfold num_lists. rewrite H. cbn [bind].
  apply Z.ltb_lt in Hn. now rewrite Hn.
Qed.

Lemma num_lists_above_million (i : Ivfflat) (n : Z) :
  dynamic_lists i = true -> 1000000 < n ->
  num_lists i (Ok n) = (r <- math_sqrt n ;; int_of_float r).
Proof.
  intros H Hn. unfold num_lists. rewrite H. cbn [bind].
  assert ((n <? 1000000) = false) as -> by (apply Z.ltb_ge; lia).
  apply Z.ltb_lt in Hn. now rewrite Hn.
Qed.

Example num_lists_500000 : num_lists Ivfflat_default (Ok 500000) = Ok 500.
Proof. vm_compute. reflexivity. Qed.

Example num_lists_4000000 : num_lists Ivfflat_default (Ok 4000000) = Ok 2000.
Proof. vm_compute. reflexivity. Qed.

Example sqrt_of_one_million : (r <- math_sqrt 1000000 ;; int_of_float r) = Ok 1000.
Proof. vm_compute. reflexivity. Qed.

(** C1 (defect in the code).  With dynamic sizing enabled and exactly one
    million rows, neither test of [optimize] holds ([< 1000000] and
    [> 1000000]), and the list count stays the configured static value
    instead of becoming sqrt(1000000) = 1000. *)
Theorem num_lists_at_one_million (i : Ivfflat) :
  dynamic_lists i = true ->
  num_lists i (Ok 1000000) = Ok (lists i).
Proof.
  intros H. unfold num_lists. rewrite H. reflexivity.
Qed.

Lemma num_lists_at_one_million_default :
  dynamic_lists Ivfflat_default = true /\
  num_lists Ivfflat_default (Ok 1000000) = Ok 100.
Proof.
  split; [reflexivity | apply (num_lists_at_one_million Ivfflat_default); reflexivity].
Defined.

(** [optimize] sends the list count computed from [get_count]. *)
Lemma optimize_ivfflat (self : PgVector) (i : Ivfflat) (db : Database) (rows : list Row) :
  index self = Some (IvfflatIndex i) ->
  db_online db = true -> db_table db = Some rows ->
  optimize self db =
  (n <- num_lists i (Ok (count_name rows)) ;;
   Ok (map (fun kv => SetConfig (fst kv) (snd kv)) (ivf_configuration i)
       ++ [SetProbes (probes i);
           CreateIvfflatIndex (index_name self (IvfflatIndex i)) (index_distance self) n])).
Proof.
  intros Hi Ho Ht. unfold optimize, get_count, visible_rows.
  rewrite Hi, Ho, Ht. cbn [bind count_of_scalar].
  now destruct (num_lists i (Ok (count_name rows))).
Qed.

(** *** Existence probe *)

Lemma logger_is_unbound : load_global "logger" = Raise (NameError "logger").
Proof. reflexivity. Qed.

(** C6 (defect in the code).  When the probe raises, the handler of
    [table_exists] evaluates [logger.error(e)]; the module binds no name
    [logger], so the call ends in a [NameError] instead of returning
    [False]. *)
Theorem table_exists_probe_failure (self : PgVector) (db : Database) :
  db_online db = false ->
  table_exists self db = Raise (NameError "logger") /\
  exists_ self db = Raise (NameError "logger").
Proof.
  intros H. unfold exists_, table_exists, has_table. rewrite H.
  split; reflexivity.
Qed.

Lemma table_exists_probe_failure_offline :
  db_online offline_db = false /\
  table_exists sample_collection offline_db = Raise (NameError "logger") /\
  exists_ sample_collection offline_db = Raise (NameError "logger").
Proof.
  split; [reflexivity |].
  apply (table_exists_probe_failure sample_collection offline_db). reflexivity.
Defined.

Lemma table_exists_online (self : PgVector) (db : Database) :
  db_online db = true ->
  table_exists self db = Ok (match db_table db with Some _ => true | None => false end).
Proof. intros H. unfold table_exists, has_table. now rewrite H. Qed.

(** *** Row count *)

Lemma count_of_scalar_none : count_of_scalar None = 0.
Proof. reflexivity. Qed.

Lemma count_name_le_length (rows : list Row) :
  0 <= count_name rows <= Z.of_nat (List.length rows).
Proof.
  unfold count_name. split; [lia |].
  apply Nat2Z.inj_le, filter_length_le.
Qed.

Lemma get_count_counts_names (self : PgVector) (db : Database) (rows : list Row) :
  db_online db = true -> db_table db = Some rows ->
  get_count self db = Ok (count_name rows).
Proof.
  intros Ho Ht. unfold get_count, visible_rows. now rewrite Ho, Ht.
Qed.

Lemma count_name_all_named (rows : list Row) :
  Forall (fun r => row_name r <> None) rows ->
  count_name rows = Z.of_nat (List.length rows).
Proof.
  unfold count_name. induction 1 as [| r rows Hr _ IH]; [reflexivity |].
  cbn [filter cell] in *. destruct (row_name r) as [n |]; [| congruence].
  cbn [option_str pyvalue_eqb negb List.length]. rewrite !Nat2Z.inj_succ. lia.
Qed.

(** C9 (defect in the code).  [get_count] counts the column [name], so a
    stored row whose name is NULL is left out: on a table of two rows, one
    of them unnamed, it answers 1. *)
Theorem get_count_skips_unnamed_rows :
  db_table (db_with [named_row; unnamed_row]) = Some [named_row; unnamed_row] /\
  get_count sample_collection (db_with [named_row; unnamed_row]) = Ok 1.
Proof. split; reflexivity. Qed.

(** *** Lists *)

Lemma in_firstn {A} (n : nat) (l : list A) (x : A) :
  In x (firstn n l) -> In x l.
Proof.
  intros H. rewrite <- (firstn_skipn n l). apply in_or_app. now left.
Qed.

(** *** The statement of [search] *)

Section SearchProperties.

Variable collection_attr : string -> bool.
Variable proximity : order_expr -> Row -> Z.


Lemma apply_filters_items (items : list (string * pyvalue)) (stmt : Select) :
  apply_filters collection_attr stmt (Some items) =
  {| sel_columns := sel_columns stmt;
     sel_where := sel_where stmt ++ flat_map (criteria_of collection_attr) items;
     sel_order_by := sel_order_by stmt;
     sel_limit := sel_limit stmt |}.
Proof.
  unfold apply_filters. revert stmt.
  induction items as [| [key value] items IH]; intros stmt; cbn [fold_left flat_map].
  - rewrite app_nil_r. now destruct stmt.
  - rewrite IH. unfold hasattr_c, getattr_c_eq, criteria_of. cbn [fst snd].
    destruct (column_of_name key) as [c |].
    + cbn [where_ sel_columns sel_where sel_order_by sel_limit].
      now rewrite <- app_assoc.
    + destruct (collection_attr key).
      * cbn [where_ sel_columns sel_where sel_order_by sel_limit].
        now rewrite <- app_assoc.
      * reflexivity.
Qed.

Lemma apply_filters_columns stmt filters :
  sel_columns (apply_filters collection_attr stmt filters) = sel_columns stmt.
Proof. destruct filters; [now rewrite apply_filters_items | reflexivity]. Qed.

Lemma apply_filters_order_by stmt filters :
  sel_order_by (apply_filters collection_attr stmt filters) = sel_order_by stmt.
Proof. destruct filters; [now rewrite apply_filters_items | reflexivity]. Qed.

Lemma apply_distance_fields self q stmt :
  sel_columns (apply_distance self q stmt) = sel_columns stmt /\
  sel_where (apply_distance self q stmt) = sel_where stmt /\
  sel_limit (apply_distance self q stmt) = sel_limit stmt /\
  sel_order_by (apply_distance self q stmt) =
    sel_order_by stmt ++
    [match distance self with
     | cosine => e_cosine_distance q
     | l2 | max_inner_product => e_max_inner_product q
     end].
Proof. unfold apply_distance. destruct (distance self); cbn; auto. Qed.

Lemma search_statement_columns self q limit filters :
  sel_columns (search_statement collection_attr self q limit filters) =
  [c_name; c_meta_data; c_content; c_embedding; c_usage].
Proof.
  unfold search_statement. cbn [limit_ sel_columns].
  destruct (apply_distance_fields self q
              (apply_filters collection_attr
                 (select [c_name; c_meta_data; c_content; c_embedding; c_usage])
                             filters)) as [-> _].
  now rewrite apply_filters_columns.
Qed.

Lemma search_statement_limit self q limit filters :
  sel_limit (search_statement collection_attr self q limit filters) = Some limit.
Proof. reflexivity. Qed.

Lemma search_statement_where self q limit filters :
  sel_where (search_statement collection_attr self q limit filters) =
  match filters with
  | Some items => flat_map (criteria_of collection_attr) items
  | None => []
  end.
Proof.
  unfold search_statement. cbn [limit_ sel_where].
  destruct (apply_distance_fields self q
              (apply_filters collection_attr
                 (select [c_name; c_meta_data; c_content; c_embedding; c_usage])
                             filters)) as (_ & -> & _).
  destruct filters; [now rewrite apply_filters_items | reflexivity].
Qed.

(** The ordering of the statement depends on the configured metric only. *)
Lemma search_order_by (self : PgVector) (q : vector) (limit : Z)
      (filters : option (list (string * pyvalue))) :
  sel_order_by (search_statement collection_attr self q limit filters) =
  [ordering_of (distance self) q].
Proof.
  unfold search_statement. cbn [limit_ sel_order_by].
  destruct (apply_distance_fields self q
              (apply_filters collection_attr
                 (select [c_name; c_meta_data; c_content; c_embedding; c_usage])
                 filters)) as (_ & _ & _ & ->).
  rewrite apply_filters_order_by. cbn [select sel_order_by app].
  now destruct (distance self).
Qed.

(** *** Executing the statement *)

Lemma insert_sorted_in es r l x :
  In x (insert_sorted proximity es r l) <-> x = r \/ In x l.
Proof.
  induction l as [| y l IH]; cbn [insert_sorted In].
  - intuition.
  - destruct (precedes proximity es y r); cbn [In]; rewrite ?IH; intuition.
Qed.

Lemma sort_rows_in es rows x :
  In x (sort_rows proximity es rows) <-> In x rows.
Proof.
  unfold sort_rows.
  assert (forall acc, In x (fold_left (fun acc r => insert_sorted proximity es r acc) rows acc)
                      <-> In x acc \/ In x rows) as H.
  { induction rows as [| r rows IH]; intros acc; cbn [fold_left In].
    - intuition.
    - rewrite IH, insert_sorted_in. intuition. }
  rewrite H. cbn [In]. intuition.
Qed.

Lemma precedes_total es a b :
  precedes proximity es a b = false -> precedes proximity es b a = true.
Proof.
  induction es as [| e es IH]; cbn [precedes]; [discriminate |].
  destruct (proximity e a <? proximity e b) eqn:Hab; [discriminate |].
  destruct (proximity e b <? proximity e a) eqn:Hba; [reflexivity |]. exact IH.
Qed.

Lemma precedes_single e a b :
  precedes proximity [e] a b = true <-> proximity e a <= proximity e b.
Proof.
  cbn [precedes].
  destruct (proximity e a <? proximity e b) eqn:Hab;
    destruct (proximity e b <? proximity e a) eqn:Hba;
    rewrite ?Z.ltb_lt, ?Z.ltb_ge in *; split; (discriminate || lia || reflexivity).
Qed.

Lemma insert_sorted_hdrel es x r l :
  HdRel (fun a b => precedes proximity es a b = true) x l ->
  precedes proximity es x r = true ->
  HdRel (fun a b => precedes proximity es a b = true) x (insert_sorted proximity es r l).
Proof.
  intros Hl Hr. destruct l as [| y l]; cbn [insert_sorted].
  - now constructor.
  - destruct (precedes proximity es y r); constructor; [| assumption].
    now apply HdRel_inv in Hl.
Qed.

Lemma insert_sorted_sorted es r l :
  Sorted (fun a b => precedes proximity es a b = true) l ->
  Sorted (fun a b => precedes proximity es a b = true) (insert_sorted proximity es r l).
Proof.
  induction 1 as [| x l Hs IH Hx]; cbn [insert_sorted].
  - repeat constructor.
  - destruct (precedes proximity es x r) eqn:Hxr.
    + constructor; [exact IH | now apply insert_sorted_hdrel].
    + constructor; [now constructor |].
      constructor. now apply precedes_total.
Qed.

Lemma sort_rows_sorted es rows :
  Sorted (fun a b => precedes proximity es a b = true) (sort_rows proximity es rows).
Proof.
  unfold sort_rows.
  assert (forall acc, Sorted (fun a b => precedes proximity es a b = true) acc ->
            Sorted (fun a b => precedes proximity es a b = true)
                   (fold_left (fun acc r => insert_sorted proximity es r acc) rows acc)) as H.
  { induction rows as [| r rows IH]; intros acc Hacc; cbn [fold_left]; [exact Hacc |].
    apply IH. now apply insert_sorted_sorted. }
  apply H. constructor.
Qed.

Lemma Sorted_firstn {A} (R : A -> A -> Prop) (l : list A) :
  Sorted R l -> forall n, Sorted R (firstn n l).
Proof.
  induction 1 as [| x l Hs IH Hx]; intros [| n]; cbn [firstn]; try constructor.
  - apply IH.
  - destruct Hx as [| y l' Hxy]; destruct n; cbn [firstn]; constructor. exact Hxy.
Qed.

(** What a select returns, when it returns: projections of rows of the
    table that satisfy every criterion, no more than the limit. *)
Lemma execute_select_ok stmt rows neighbors :
  execute_select proximity stmt rows = Ok neighbors ->
  (forall n, sel_limit stmt = Some n ->
             0 <= n /\ (List.length neighbors <= Z.to_nat n)%nat) /\
  (forall nb, In nb neighbors ->
     exists r, In r rows /\ forallb (holds r) (sel_where stmt) = true /\
               nb = project (sel_columns stmt) r).
Proof.
  unfold execute_select. intros H.
  assert (forall l nb,
            In nb (map (project (sel_columns stmt)) l) ->
            (forall r, In r l ->
               In r (sort_rows proximity (sel_order_by stmt)
                       (filter (fun r => forallb (holds r) (sel_where stmt)) rows))) ->
            exists r, In r rows /\ forallb (holds r) (sel_where stmt) = true /\
                      nb = project (sel_columns stmt) r) as Hin.
  { intros l nb Hnb Hl. apply in_map_iff in Hnb as (r & <- & Hr).
    apply Hl, sort_rows_in, filter_In in Hr as [Hr Hw]. eauto. }
  destruct (sel_limit stmt) as [n |].
  - destruct (n <? 0) eqn:Hn; [discriminate |].
    apply Z.ltb_ge in Hn. injection H as <-. split.
    + intros n' [= <-]. split; [assumption |].
      rewrite length_map, length_firstn. apply Nat.le_min_l.
    + intros nb Hnb. apply (Hin _ _ Hnb). intros r Hr.
      now apply in_firstn in Hr.
  - injection H as <-. split; [discriminate |].
    intros nb Hnb. apply (Hin _ _ Hnb). auto.
Qed.

Lemma execute_select_raises stmt rows e :
  execute_select proximity stmt rows = Raise e ->
  exists n, sel_limit stmt = Some n /\ n < 0.
Proof.
  unfold execute_select. destruct (sel_limit stmt) as [n |]; [| discriminate].
  destruct (n <? 0) eqn:Hn; [| discriminate].
  intros _. exists n. split; [reflexivity | now apply Z.ltb_lt].
Qed.

(** The rows come back in the order of the ordering expressions. *)
Lemma execute_select_sorted stmt rows neighbors :
  execute_select proximity stmt rows = Ok neighbors ->
  exists l, neighbors = map (project (sel_columns stmt)) l /\
            Sorted (fun a b => precedes proximity (sel_order_by stmt) a b = true) l.
Proof.
  unfold execute_select. destruct (sel_limit stmt) as [n |].
  - destruct (n <? 0); [discriminate |]. intros [= <-]. eexists. split; [reflexivity |].
    apply Sorted_firstn, sort_rows_sorted.
  - intros [= <-]. eexists. split; [reflexivity |]. apply sort_rows_sorted.
Qed.

(** A criterion that is the constant [false] empties the result. *)
Lemma execute_select_const_false stmt rows neighbors :
  In (w_const false) (sel_where stmt) ->
  execute_select proximity stmt rows = Ok neighbors ->
  neighbors = [].
Proof.
  intros Hw H. destruct neighbors as [| nb neighbors]; [reflexivity |].
  apply execute_select_ok in H as [_ H].
  destruct (H nb (or_introl eq_refl)) as (r & _ & Hall & _).
  rewrite forallb_forall in Hall. specialize (Hall _ Hw). discriminate.
Qed.

Lemma document_of_projection (r : Row) :
  document_of_neighbor
    (project [c_name; c_meta_data; c_content; c_embedding; c_usage] r)
  = document_of_row r.
Proof.
  unfold document_of_neighbor, document_of_row, project, field.
  cbn. destruct (row_name r), (row_embedding r), (row_usage r); reflexivity.
Qed.

End SearchProperties.

(** *** The calls of [search] *)

Section SearchCalls.

Variable collection_attr : string -> bool.
Variable proximity : order_expr -> Row -> Z.

Lemma fetch_neighbors_ok self stmt db neighbors :
  fetch_neighbors proximity self stmt db = Ok neighbors ->
  exists rows, db_online db = true /\ db_table db = Some rows /\
               execute_select proximity stmt rows = Ok neighbors.
Proof.
  unfold fetch_neighbors, visible_rows.
  destruct (db_online db); [| discriminate].
  destruct (db_table db) as [rows |]; [| discriminate].
  cbn [bind]. eauto.
Qed.

(** C10.  Whatever [search] returns is built from the five selected
    columns, name, meta_data, content, embedding and usage: the statement
    selects neither id, content_hash nor the timestamps; every returned
    document is the image of a stored row under these columns and carries
    no id; and no more than [limit] documents come back. *)
Theorem search_results_from_projection
        (self : PgVector) (query : str) (limit : Z)
        (filters : option (list (string * pyvalue))) (db db' : Database)
        (docs : list Document) :
  search collection_attr proximity self query limit filters db = Ok (docs, db') ->
  (forall q c,
      In c (sel_columns (search_statement collection_attr self q limit filters)) ->
      In c [c_name; c_meta_data; c_content; c_embedding; c_usage]) /\
  (List.length docs <= Z.to_nat limit)%nat /\
  (forall d, In d docs ->
     doc_id d = None /\
     exists rows r, db_table db = Some rows /\ In r rows /\ d = document_of_row r).
Proof.
  intros H. split.
  { intros q c. now rewrite search_statement_columns. }
  unfold search in H.
  destruct (get_embedding (embedder self) query) as [q |].
  2:{ injection H as <- _. split; [apply Nat.le_0_l | intros d []]. }
  destruct (fetch_neighbors proximity self
              (search_statement collection_attr self q limit filters) db)
    as [neighbors | e] eqn:Hf.
  2:{ destruct (create self db); [| discriminate].
      injection H as <- _. split; [apply Nat.le_0_l | intros d []]. }
  injection H as <- _.
  apply fetch_neighbors_ok in Hf as (rows & _ & Ht & Hx).
  apply execute_select_ok in Hx as [Hlim Hrows].
  rewrite search_statement_columns in Hrows. split.
  - rewrite length_map. now apply (Hlim limit).
  - intros d Hd. apply in_map_iff in Hd as (nb & <- & Hnb).
    destruct (Hrows nb Hnb) as (r & Hr & _ & ->).
    rewrite document_of_projection. split; [reflexivity | eauto].
Qed.

(** C3.  The ordering of [search] depends on the configured metric only:
    for L2 and for max-inner-product the statement orders by the same
    inner-product expression on the query embedding, for cosine by the
    cosine distance to it, and the documents come back in ascending order
    of that expression. *)
Theorem search_orders_by_metric
        (self : PgVector) (query : str) (limit : Z)
        (filters : option (list (string * pyvalue))) (db db' : Database)
        (docs : list Document) (q : vector) :
  get_embedding (embedder self) query = Some q ->
  search collection_attr proximity self query limit filters db = Ok (docs, db') ->
  sel_order_by (search_statement collection_attr self q limit filters)
  = [match distance self with
     | l2 => e_max_inner_product q
     | max_inner_product => e_max_inner_product q
     | cosine => e_cosine_distance q
     end] /\
  exists rows,
    docs = map document_of_row rows /\
    Sorted (fun a b => proximity (ordering_of (distance self) q) a
                       <= proximity (ordering_of (distance self) q) b) rows.
Proof.
  intros Hq H. split.
  { rewrite search_order_by. now destruct (distance self). }
  unfold search in H. rewrite Hq in H.
  destruct (fetch_neighbors proximity self
              (search_statement collection_attr self q limit filters) db)
    as [neighbors | e] eqn:Hf.
  2:{ destruct (create self db); [| discriminate].
      injection H as <- _. exists []. split; [reflexivity | constructor]. }
  injection H as <- _.
  apply fetch_neighbors_ok in Hf as (rows & _ & _ & Hx).
  apply execute_select_sorted in Hx as (l & -> & Hsorted).
  rewrite search_statement_columns, search_order_by in *.
  exists l. split.
  - rewrite map_map. apply map_ext. intros r. apply document_of_projection.
  - clear -Hsorted. induction Hsorted as [| x l Hs IH Hx]; constructor; [exact IH |].
    destruct Hx as [| y l' Hxy]; constructor. now apply precedes_single.
Qed.

(** A filter key that is a column adds the comparison of that column. *)
Lemma filter_on_column stmt key value c :
  column_of_name key = Some c ->
  apply_filters collection_attr stmt (Some [(key, value)]) = where_ stmt (w_eq c value).
Proof.
  intros H. unfold apply_filters, hasattr_c, getattr_c_eq.
  cbn [fold_left fst snd]. now rewrite H.
Qed.

(** A filter key that is neither a column nor an attribute of the column
    collection is skipped. *)
Lemma filter_on_unknown_key stmt key value :
  column_of_name key = None -> collection_attr key = false ->
  apply_filters collection_attr stmt (Some [(key, value)]) = stmt.
Proof.
  intros H Ha. unfold apply_filters, hasattr_c.
  cbn [fold_left fst snd]. now rewrite H, Ha.
Qed.

(** A filter key that is no column but an attribute of the column
    collection adds the constant [false]. *)
Lemma filter_on_attribute stmt key value :
  column_of_name key = None -> collection_attr key = true ->
  apply_filters collection_attr stmt (Some [(key, value)]) = where_ stmt (w_const false).
Proof.
  intros H Ha. unfold apply_filters, hasattr_c, getattr_c_eq.
  cbn [fold_left fst snd]. now rewrite H, Ha.
Qed.

(** No filter makes [search] raise: it raises with filters exactly when
    it raises without. *)
Lemma search_filters_never_raise self query limit filters db e :
  search collection_attr proximity self query limit filters db = Raise e <->
  search collection_attr proximity self query limit None db = Raise e.
Proof.
  unfold search.
  destruct (get_embedding (embedder self) query) as [q |]; [| reflexivity].
  assert (forall f, raised (fetch_neighbors proximity self
                              (search_statement collection_attr self q limit f) db)
                    = raised (visible_rows (db_online db) (db_table db)) || (limit <? 0))
    as Hr.
  { intros f. unfold fetch_neighbors.
    destruct (visible_rows (db_online db) (db_table db)) as [rows |]; [| reflexivity].
    cbn [bind raised orb]. unfold execute_select.
    rewrite search_statement_limit. now destruct (limit <? 0). }
  pose proof (Hr filters) as H1. pose proof (Hr None) as H2.
  destruct (fetch_neighbors proximity self
              (search_statement collection_attr self q limit filters) db),
           (fetch_neighbors proximity self
              (search_statement collection_attr self q limit None) db);
    cbn [raised] in H1, H2; try reflexivity; try congruence.
  - split; discriminate.
Qed.

(** A filter on an attribute of the column collection leaves nothing to
    return. *)
Lemma search_filter_on_attribute self query limit key value items db docs db' :
  column_of_name key = None -> collection_attr key = true ->
  In (key, value) items ->
  search collection_attr proximity self query limit (Some items) db = Ok (docs, db') ->
  docs = [].
Proof.
  intros Hc Ha Hin H. unfold search in H.
  destruct (get_embedding (embedder self) query) as [q |]; [| now injection H as <- _].
  destruct (fetch_neighbors proximity self
              (search_statement collection_attr self q limit (Some items)) db)
    as [neighbors | e] eqn:Hf.
  2:{ destruct (create self db); [now injection H as <- _ | discriminate]. }
  injection H as <- _.
  apply fetch_neighbors_ok in Hf as (rows & _ & _ & Hx).
  apply execute_select_const_false in Hx; [now subst |].
  rewrite search_statement_where. apply in_flat_map.
  exists (key, value). split; [assumption |].
  unfold criteria_of. cbn [fst snd]. rewrite Hc, Ha. now left.
Qed.

(** *** Recovery *)

Lemma create_provisions self db :
  db_online db = true -> db_table db = None -> db_ddl_allowed db = true ->
  exists db', create self db = Ok db' /\ db_table db' = Some [].
Proof.
  intros Ho Ht Ha. unfold create. rewrite table_exists_online by assumption.
  rewrite Ht, Ho. cbn [negb bind].
  unfold create_extension. rewrite Ha.
  destruct db as [on ddl ext schemas t now]. cbn in *. subst.
  destruct ext, (schema self) as [name |]; cbn [bind]; unfold create_schema; cbn;
    try destruct (existsb (String.eqb name) schemas); cbn; eauto.
Qed.

Lemma create_keeps_table self db :
  db_online db = true -> db_table db <> None -> create self db = Ok db.
Proof.
  intros Ho Ht. unfold create. rewrite table_exists_online by assumption.
  now destruct (db_table db).
Qed.

(** C4, as amended.  When the execution of the statement fails, [search]
    drops that error and runs [create]: if [create] returns, [search]
    returns the empty list, with the table provisioned when it was
    missing and creation is allowed; on an engine that answers the
    existence probe, an exception of the provisioning itself is the
    exception of [search]. *)
Theorem search_recovers_by_provisioning
        (self : PgVector) (query : str) (limit : Z)
        (filters : option (list (string * pyvalue))) (db : Database)
        (q : vector) (e : exn) :
  get_embedding (embedder self) query = Some q ->
  fetch_neighbors proximity self
    (search_statement collection_attr self q limit filters) db = Raise e ->
  (forall db', create self db = Ok db' ->
     search collection_attr proximity self query limit filters db = Ok ([], db')) /\
  (db_online db = true ->
   forall e', create self db = Raise e' ->
     search collection_attr proximity self query limit filters db = Raise e') /\
  (db_online db = true -> db_table db = None -> db_ddl_allowed db = true ->
     exists db', search collection_attr proximity self query limit filters db
                 = Ok ([], db') /\ db_table db' = Some []) /\
  (db_online db = true -> db_table db <> None ->
     search collection_attr proximity self query limit filters db = Ok ([], db)).
Proof.
  intros Hq Hf.
  assert (search collection_attr proximity self query limit filters db
          = (db' <- create self db ;; Ok ([], db'))) as Hs.
  { unfold search. now rewrite Hq, Hf. }
  rewrite Hs. repeat split.
  - now intros db' ->.
  - now intros _ e' ->.
  - intros Ho Ht Ha. destruct (create_provisions self db Ho Ht Ha) as (db' & -> & Hd).
    now exists db'.
  - intros Ho Ht. now rewrite create_keeps_table.
Qed.

End SearchCalls.

(** *** The write loop *)

Section WriteLoop.

Variable statement : PgVector -> Document -> result Insert.
Variable self : PgVector.
Variable batch_size : Z.

Lemma set_table_set_table db t t' : set_table (set_table db t) t' = set_table db t'.
Proof. reflexivity. Qed.

Lemma set_table_same db : set_table db (db_table db) = db.
Proof. now destruct db. Qed.

(** One round of the loop changes the view of the session only. *)
Lemma stage_staged d sess :
  stage statement self d sess =
  (t <- staged statement self (sess_db sess) (sess_rows sess) d ;;
   Ok {| sess_db := sess_db sess; sess_rows := t;
         sess_commits := sess_commits sess |}).
Proof.
  unfold stage, staged, execute_insert.
  destruct (statement self d) as [stmt |]; [| reflexivity]. cbn [bind].
  now destruct (run_insert self stmt _ _ _).
Qed.

Lemma staged_set_table db t0 t d :
  staged statement self (set_table db t0) t d = staged statement self db t d.
Proof. reflexivity. Qed.

Lemma staged_all_set_table db t0 docs t :
  staged_all statement self (set_table db t0) docs t = staged_all statement self db docs t.
Proof.
  revert t. induction docs as [| d docs IH]; intros t; cbn [staged_all]; [reflexivity |].
  rewrite staged_set_table. destruct (staged statement self db t d); cbn [bind]; auto.
Qed.

Lemma staged_all_app db pre post t :
  staged_all statement self db (pre ++ post) t =
  (t' <- staged_all statement self db pre t ;; staged_all statement self db post t').
Proof.
  revert t. induction pre as [| d pre IH]; intros t; cbn [app staged_all bind];
    [reflexivity |].
  destruct (staged statement self db t d); cbn [bind]; auto.
Qed.

(** The rounds either all succeed or there is a first one that fails. *)
Lemma staged_all_first_failure db docs t e :
  staged_all statement self db docs t = Raise e ->
  exists pre d post t',
    docs = pre ++ d :: post /\
    staged_all statement self db pre t = Ok t' /\
    staged statement self db t' d = Raise e.
Proof.
  revert t. induction docs as [| d docs IH]; intros t; cbn [staged_all];
    [discriminate |].
  destruct (staged statement self db t d) as [t1 | e1] eqn:Hd; cbn [bind]; intros H.
  - destruct (IH _ H) as (pre & d' & post & t' & -> & Hpre & Hd').
    exists (d :: pre), d', post, t'. cbn [app staged_all]. rewrite Hd. cbn [bind].
    auto.
  - injection H as <-. exists [], d, docs, t. auto.
Qed.

(** The loop ends with the view of all rounds committed, or with the
    exception of the first round that fails; it touches nothing of the
    database but the table. *)
Lemma write_loop_spec docs : forall counter sess,
  0 <= counter ->
  (counter = 0 -> db_table (sess_db sess) = sess_rows sess) ->
  let run := write_loop statement self docs batch_size counter sess in
  (forall t, set_table (sess_db (fst run)) t = set_table (sess_db sess) t) /\
  match staged_all statement self (sess_db sess) docs (sess_rows sess) with
  | Ok t' => snd run = None /\ sess_rows (fst run) = t' /\
             db_table (sess_db (fst run)) = t'
  | Raise e => snd run = Some e
  end.
Proof.
  induction docs as [| d docs IH]; intros counter sess Hc Hinv;
    cbn [write_loop staged_all].
  - destruct (0 <? counter) eqn:H0; cbn [fst snd commit sess_db sess_rows db_table set_table].
    + auto.
    + apply Z.ltb_ge in H0. assert (counter = 0) as Hz by lia. auto.
  - rewrite stage_staged.
    destruct (staged statement self (sess_db sess) (sess_rows sess) d) as [t1 | e] eqn:Hd;
      cbn [bind fst snd]; [| auto].
    destruct (batch_size <=? counter + 1).
    + specialize (IH 0 (commit {| sess_db := sess_db sess; sess_rows := t1;
                                  sess_commits := sess_commits sess |})).
      cbn [commit sess_db sess_rows sess_commits] in IH.
      rewrite staged_all_set_table in IH.
      destruct IH as [IHdb IH]; [lia | reflexivity |].
      split; [| exact IH].
      intros t. now rewrite IHdb, set_table_set_table.
    + specialize (IH (counter + 1) {| sess_db := sess_db sess; sess_rows := t1;
                                      sess_commits := sess_commits sess |}).
      cbn [sess_db sess_rows sess_commits] in IH.
      apply IH; lia.
Qed.

Lemma ceil_div_step (n : Z) :
  0 < batch_size -> ceil_div (batch_size + n) batch_size = 1 + ceil_div n batch_size.
Proof.
  intros Hb. unfold ceil_div.
  replace (batch_size + n + batch_size - 1) with (n + batch_size - 1 + 1 * batch_size) by lia.
  rewrite Z.div_add by lia. lia.
Qed.

Lemma ceil_div_small (c : Z) :
  0 <= c < batch_size -> ceil_div c batch_size = if 0 <? c then 1 else 0.
Proof.
  intros Hc. unfold ceil_div. destruct (0 <? c) eqn:H0.
  - apply Z.ltb_lt in H0.
    replace (c + batch_size - 1) with (c - 1 + 1 * batch_size) by lia.
    rewrite Z.div_add, Z.div_small by lia. reflexivity.
  - apply Z.ltb_ge in H0. apply Z.div_small. lia.
Qed.

(** The commits of a run in which every round succeeds. *)
Lemma write_loop_commits docs : forall counter sess t,
  0 <= counter < batch_size ->
  staged_all statement self (sess_db sess) docs (sess_rows sess) = Ok t ->
  Z.of_nat (sess_commits (fst (write_loop statement self docs batch_size counter sess)))
  = Z.of_nat (sess_commits sess)
    + ceil_div (counter + Z.of_nat (List.length docs)) batch_size.
Proof.
  induction docs as [| d docs IH]; intros counter sess t Hc;
    cbn [write_loop staged_all List.length].
  - intros _. rewrite Z.add_0_r, ceil_div_small by assumption.
    destruct (0 <? counter); cbn [fst commit sess_commits]; lia.
  - rewrite stage_staged.
    destruct (staged statement self (sess_db sess) (sess_rows sess) d) as [t1 | e] eqn:Hd;
      cbn [bind fst]; [| discriminate].
    intros Hall. destruct (batch_size <=? counter + 1) eqn:Hb.
    + apply Z.leb_le in Hb.
      rewrite (IH 0 _ t); [| lia |].
      * cbn [commit sess_commits].
        replace (counter + Z.of_nat (S (List.length docs)))
          with (batch_size + Z.of_nat (List.length docs)) by lia.
        rewrite ceil_div_step, Z.add_0_l by lia. lia.
      * cbn [commit sess_db sess_rows]. now rewrite staged_all_set_table.
    + apply Z.leb_gt in Hb.
      rewrite (IH (counter + 1) _ t); [| lia | assumption].
      cbn [sess_commits]. f_equal. f_equal. lia.
Qed.

(** A run whose round for [d] fails after the rounds for [pre]: the
    commits made are the full batches before [d], and what is durable is
    the view after the documents of these batches. *)
Lemma write_loop_failure d post e pre : forall counter sess t,
  0 <= counter < batch_size ->
  staged_all statement self (sess_db sess) pre (sess_rows sess) = Ok t ->
  staged statement self (sess_db sess) t d = Raise e ->
  let run := write_loop statement self (pre ++ d :: post) batch_size counter sess in
  let n := counter + Z.of_nat (List.length pre) in
  snd run = Some e /\
  Z.of_nat (sess_commits (fst run)) = Z.of_nat (sess_commits sess) + n / batch_size /\
  (n < batch_size -> sess_db (fst run) = sess_db sess) /\
  (batch_size <= n ->
     exists t_k,
       staged_all statement self (sess_db sess)
         (firstn (Z.to_nat (batch_size * (n / batch_size) - counter)) pre)
         (sess_rows sess) = Ok t_k /\
       sess_db (fst run) = set_table (sess_db sess) t_k).
Proof.
  induction pre as [| d1 pre IH]; intros counter sess t Hc; cbv zeta;
    cbn [app write_loop staged_all List.length].
  - intros [= <-] Hd. rewrite stage_staged, Hd. cbn [bind fst snd].
    rewrite Z.add_0_r, Z.div_small by lia.
    repeat split; [lia | lia].
  - rewrite stage_staged.
    destruct (staged statement self (sess_db sess) (sess_rows sess) d1) as [t1 | e1] eqn:Hd1;
      cbn [bind fst snd]; [| discriminate].
    intros Hpre Hd. destruct (batch_size <=? counter + 1) eqn:Hb.
    + apply Z.leb_le in Hb. assert (counter + 1 = batch_size) as Hcb by lia.
      specialize (IH 0 (commit {| sess_db := sess_db sess; sess_rows := t1;
                                  sess_commits := sess_commits sess |}) t).
      cbn [commit sess_db sess_rows sess_commits] in IH.
      rewrite staged_all_set_table, staged_set_table in IH. cbv zeta in IH.
      rewrite Z.add_0_l in IH.
      destruct IH as (He & Hn & Hsmall & Hlarge); [lia | assumption | assumption |].
      replace (counter + Z.of_nat (S (List.length pre)))
        with (Z.of_nat (List.length pre) + 1 * batch_size) by lia.
      rewrite Z.div_add by lia.
      split; [exact He |]. split; [lia |]. split; [lia |]. intros _.
      replace (batch_size * (Z.of_nat (List.length pre) / batch_size + 1) - counter)
        with (1 + batch_size * (Z.of_nat (List.length pre) / batch_size)) by lia.
      assert (0 <= batch_size * (Z.of_nat (List.length pre) / batch_size)) as Hq.
      { apply Z.mul_nonneg_nonneg; [lia |]. apply Z.div_pos; lia. }
      rewrite Z2Nat.inj_add, Nat.add_1_l by lia.
      change (Z.to_nat 1) with 1%nat. cbn [Nat.add firstn staged_all].
      rewrite Hd1. cbn [bind].
      destruct (Z.lt_ge_cases (Z.of_nat (List.length pre)) batch_size) as [Hlt | Hge].
      * rewrite Z.div_small, Z.mul_0_r by lia. cbn [Z.to_nat firstn staged_all].
        exists t1. split; [reflexivity |]. now apply Hsmall.
      * destruct (Hlarge Hge) as (t_k & Hk & Hdb).
        rewrite Z.sub_0_r, staged_all_set_table in Hk.
        exists t_k. split; [exact Hk |].
        now rewrite Hdb, set_table_set_table.
    + apply Z.leb_gt in Hb.
      specialize (IH (counter + 1) {| sess_db := sess_db sess; sess_rows := t1;
                                      sess_commits := sess_commits sess |} t).
      cbn [sess_db sess_rows sess_commits] in IH. cbv zeta in IH.
      destruct IH as (He & Hn & Hsmall & Hlarge); [lia | assumption | assumption |].
      replace (counter + Z.of_nat (S (List.length pre)))
        with (counter + 1 + Z.of_nat (List.length pre)) by lia.
      split; [exact He |]. split; [exact Hn |]. split; [exact Hsmall |].
      intros Hge. destruct (Hlarge Hge) as (t_k & Hk & Hdb).
      exists t_k. split; [| exact Hdb].
      assert (1 <= (counter + 1 + Z.of_nat (List.length pre)) / batch_size) as Hq.
      { apply Z.div_le_lower_bound; lia. }
      replace (batch_size * ((counter + 1 + Z.of_nat (List.length pre)) / batch_size) - counter)
        with (1 + (batch_size * ((counter + 1 + Z.of_nat (List.length pre)) / batch_size)
                   - (counter + 1))) by lia.
      rewrite Z2Nat.inj_add by nia.
      change (Z.to_nat 1) with 1%nat. cbn [Nat.add firstn staged_all].
      rewrite Hd1. cbn [bind]. exact Hk.
Qed.

End WriteLoop.

(** *** The calls of [insert] and [upsert] *)

Section WriteCalls.

Variable md5_hexdigest : str -> str.

Lemma close_write_loop_batches statement self docs batch_size db :
  1 <= batch_size ->
  commits_in_batches statement self docs batch_size db
    (close (write_loop statement self docs batch_size 0 (Session_open db))).
Proof.
  intros Hb. split.
  - intros t Ht.
    pose proof (write_loop_spec statement self batch_size docs 0 (Session_open db)
                  (Z.le_refl 0) (fun _ => eq_refl)) as [_ Hs].
    cbn [Session_open sess_db sess_rows] in Hs. rewrite Ht in Hs.
    destruct Hs as (He & _ & Hdb).
    pose proof (write_loop_commits statement self batch_size docs 0 (Session_open db) t)
      as Hn.
    cbn [Session_open sess_db sess_rows sess_commits] in Hn.
    rewrite Z.add_0_l in Hn. cbn [close error commits final].
    repeat split; [exact He | apply Hn; [lia | exact Ht] | exact Hdb].
  - intros pre d post t e -> Hpre Hd.
    pose proof (write_loop_failure statement self batch_size d post e pre 0
                  (Session_open db) t) as Hf.
    cbn [Session_open sess_db sess_rows sess_commits] in Hf. cbv zeta in Hf.
    rewrite Z.add_0_l in Hf.
    destruct Hf as (He & Hn & Hsmall & Hlarge); [lia | assumption | assumption |].
    cbv zeta. cbn [close error commits final]. repeat split; [exact He | exact Hn |].
    destruct (Z.lt_ge_cases (Z.of_nat (List.length pre)) batch_size) as [Hlt | Hge].
    + rewrite Z.div_small, Z.mul_0_r by lia. cbn [Z.to_nat firstn staged_all].
      now rewrite (Hsmall Hlt).
    + destruct (Hlarge Hge) as (t_k & Hk & ->).
      rewrite Z.sub_0_r in Hk. exact Hk.
Qed.

(** C5.  [insert] and [upsert] run the rounds in input order and commit
    after every [batch_size] staged documents and once more for a
    remainder: for a batch size of at least one, a call in which all [N]
    rounds succeed makes [ceil(N / batch_size)] commits and leaves the view
    after all documents; a call whose first failing round comes after [j]
    documents has made [k = j / batch_size] commits and leaves exactly the
    view after the first [k] batches. *)
Theorem writes_commit_in_batches (self : PgVector) (docs : list Document)
        (batch_size : Z) (db : Database) :
  1 <= batch_size ->
  commits_in_batches (insert_statement md5_hexdigest) self docs batch_size db
    (insert md5_hexdigest self docs batch_size db) /\
  commits_in_batches (upsert_statement md5_hexdigest) self docs batch_size db
    (upsert md5_hexdigest self docs batch_size db).
Proof.
  intros Hb. split; apply close_write_loop_batches; assumption.
Qed.

(** A call touches nothing of the database but the table. *)
Lemma write_call_keeps_database statement self docs batch_size db :
  let out := close (write_loop statement self docs batch_size 0 (Session_open db)) in
  db_online (final out) = db_online db /\ db_now (final out) = db_now db /\
  db_ddl_allowed (final out) = db_ddl_allowed db /\
  db_extension (final out) = db_extension db /\
  db_schemas (final out) = db_schemas db.
Proof.
  pose proof (write_loop_spec statement self batch_size docs 0 (Session_open db)
                (Z.le_refl 0) (fun _ => eq_refl)) as [Hdb _].
  cbv zeta in *. cbn [close final Session_open sess_db] in *.
  specialize (Hdb None).
  repeat split.
  - apply (f_equal db_online) in Hdb. exact Hdb.
  - apply (f_equal db_now) in Hdb. exact Hdb.
  - apply (f_equal db_ddl_allowed) in Hdb. exact Hdb.
  - apply (f_equal db_extension) in Hdb. exact Hdb.
  - apply (f_equal db_schemas) in Hdb. exact Hdb.
Qed.

(** A call that ends without an exception, for any batch size, leaves the
    view after all its rounds. *)
Lemma write_call_success statement self docs batch_size db :
  error (close (write_loop statement self docs batch_size 0 (Session_open db))) = None ->
  staged_all statement self db docs (db_table db)
  = Ok (db_table (final (close (write_loop statement self docs batch_size 0
                                  (Session_open db))))).
Proof.
  pose proof (write_loop_spec statement self batch_size docs 0 (Session_open db)
                (Z.le_refl 0) (fun _ => eq_refl)) as [_ Hs].
  cbn [Session_open sess_db sess_rows] in Hs. cbn [close error final].
  destruct (staged_all statement self db docs (db_table db)) as [t | e].
  - destruct Hs as (_ & _ & ->). reflexivity.
  - rewrite Hs. discriminate.
Qed.

(** *** The statements of the two loops *)

Lemma insert_statement_ok self d stmt :
  insert_statement md5_hexdigest self d = Ok stmt ->
  exists v,
    get_embedding (embedder self) (doc_content d) = Some v /\
    values_of d v (md5_hexdigest (replace_nul (doc_content d))) stmt /\
    ins_on_conflict stmt = None.
Proof.
  unfold insert_statement, Document_embed.
  destruct (get_embedding (embedder self) (doc_content d)) as [v |]; [| discriminate].
  cbn. intros [= <-]. exists v. unfold values_of. cbn. auto 10.
Qed.

Lemma upsert_statement_ok self d stmt :
  upsert_statement md5_hexdigest self d = Ok stmt ->
  exists v,
    get_embedding (embedder self) (doc_content d) = Some v /\
    values_of d v (md5_hexdigest (replace_nul (doc_content d))) stmt /\
    ins_on_conflict stmt = Some ([c_id], upsert_set).
Proof.
  unfold upsert_statement.
  destruct (insert_statement md5_hexdigest self d) as [s0 |] eqn:H0; [| discriminate].
  apply insert_statement_ok in H0 as (v & Hv & Hvals & _).
  cbn [bind]. intros [= <-]. exists v. unfold values_of in *. cbn. auto 10.
Qed.

Lemma do_update_upsert_set stmt now r :
  do_update upsert_set (proposed_row stmt now) r = replaced stmt r.
Proof. reflexivity. Qed.

Lemma replaced_idempotent stmt r : replaced stmt (replaced stmt r) = replaced stmt r.
Proof. reflexivity. Qed.

Lemma replaced_proposed stmt now :
  replaced stmt (proposed_row stmt now) = proposed_row stmt now.
Proof. reflexivity. Qed.

(** What a successful round of [upsert] does to the view. *)
Lemma staged_upsert_ok self db t d t' :
  staged (upsert_statement md5_hexdigest) self db t d = Ok t' ->
  exists stmt rows,
    upsert_statement md5_hexdigest self d = Ok stmt /\
    db_online db = true /\ t = Some rows /\
    fits (dimensions self) (ins_embedding stmt) = true /\
    t' = Some (if existsb (has_id (ins_id stmt)) rows
               then map (fun r => if has_id (ins_id stmt) r then replaced stmt r else r) rows
               else rows ++ [proposed_row stmt (db_now db)]).
Proof.
  unfold staged.
  destruct (upsert_statement md5_hexdigest self d) as [stmt |] eqn:Hs; [| discriminate].
  cbn [bind]. unfold run_insert, visible_rows.
  destruct (db_online db); [| discriminate].
  destruct t as [rows |]; [| discriminate]. cbn [bind].
  destruct (fits (dimensions self) (ins_embedding stmt)) eqn:Hfit; [| discriminate].
  cbn [negb].
  apply upsert_statement_ok in Hs as Hs'. destruct Hs' as (v & _ & _ & Hc). rewrite Hc.
  intros H. exists stmt, rows.
  split; [reflexivity |]. split; [reflexivity |]. split; [reflexivity |].
  split; [exact Hfit |].
  destruct (existsb (has_id (ins_id stmt)) rows); cbn [bind] in H;
    injection H as <-; reflexivity.
Qed.

(** After a successful round of [upsert], the view has a row with the
    identity of the statement, and every such row carries the values of
    the statement. *)
Lemma staged_upsert_row self db t d t' :
  staged (upsert_statement md5_hexdigest) self db t d = Ok t' ->
  exists stmt rows',
    upsert_statement md5_hexdigest self d = Ok stmt /\ t' = Some rows' /\
    (exists r, In r rows' /\ row_id r = ins_id stmt) /\
    (forall r, In r rows' -> row_id r = ins_id stmt -> replaced stmt r = r).
Proof.
  intros H. apply staged_upsert_ok in H as (stmt & rows & Hs & _ & _ & _ & ->).
  exists stmt. eexists. split; [exact Hs |]. split; [reflexivity |].
  destruct (existsb (has_id (ins_id stmt)) rows) eqn:Hex.
  - split.
    + apply existsb_exists in Hex as (x & Hx & Hid).
      exists (replaced stmt x). split.
      * apply in_map_iff. exists x. now rewrite Hid.
      * unfold has_id in Hid. now apply String.eqb_eq in Hid.
    + intros r Hr Hid. apply in_map_iff in Hr as (x & <- & _).
      destruct (has_id (ins_id stmt) x) eqn:Hx; [reflexivity |].
      unfold has_id in Hx. rewrite Hid, String.eqb_refl in Hx. discriminate.
  - split.
    + exists (proposed_row stmt (db_now db)). split; [| reflexivity].
      apply in_or_app. right. now left.
    + intros r Hr Hid. apply in_app_or in Hr as [Hr | [<- | []]]; [| reflexivity].
      assert (existsb (has_id (ins_id stmt)) rows = true) as Habs.
      { apply existsb_exists. exists r. split; [assumption |].
        unfold has_id. rewrite Hid. apply String.eqb_refl. }
      congruence.
Qed.

(** C2.  A round of [upsert] whose identity is already the id of a row
    replaces name, meta_data, content, embedding, usage and content_hash
    of that row by the values of the new document, whatever the stored
    content hash was, and keeps the other rows; and after a call of
    [upsert] every row with the identity of the last document carries
    that document's values. *)
Theorem upsert_replaces_on_conflict
        (self : PgVector) (d : Document) (db : Database)
        (rows : list Row) (r : Row) (stmt : Insert) :
  upsert_statement md5_hexdigest self d = Ok stmt ->
  db_online db = true ->
  fits (dimensions self) (ins_embedding stmt) = true ->
  In r rows -> row_id r = ins_id stmt ->
  (exists v, get_embedding (embedder self) (doc_content d) = Some v /\
             values_of d v (md5_hexdigest (replace_nul (doc_content d))) stmt) /\
  staged (upsert_statement md5_hexdigest) self db (Some rows) d
  = Ok (Some (map (fun x => if has_id (ins_id stmt) x then replaced stmt x else x) rows)) /\
  (forall pre batch_size db0,
      staged_all (upsert_statement md5_hexdigest) self db0 pre (db_table db0)
      = Ok (Some rows) ->
      db_online db0 = true ->
      let out := upsert md5_hexdigest self (pre ++ [d]) batch_size db0 in
      error out = None /\
      db_table (final out)
      = Some (map (fun x => if has_id (ins_id stmt) x then replaced stmt x else x) rows) /\
      (exists rows', db_table (final out) = Some rows' /\ In (replaced stmt r) rows')).
Proof.
  intros Hs Ho Hfit Hr Hid.
  assert (existsb (has_id (ins_id stmt)) rows = true) as Hex.
  { apply existsb_exists. exists r. split; [assumption |].
    unfold has_id. rewrite Hid. apply String.eqb_refl. }
  assert (forall db1, db_online db1 = true ->
            staged (upsert_statement md5_hexdigest) self db1 (Some rows) d
            = Ok (Some (map (fun x => if has_id (ins_id stmt) x
                                      then replaced stmt x else x) rows))) as Hround.
  { intros db1 Ho1. unfold staged. rewrite Hs. cbn [bind].
    unfold run_insert, visible_rows. rewrite Ho1. cbn [bind]. rewrite Hfit. cbn [negb].
    rewrite Hex.
    apply upsert_statement_ok in Hs as (v & _ & _ & ->). reflexivity. }
  split.
  { apply upsert_statement_ok in Hs as (v & Hv & Hvals & _). eauto. }
  split; [now apply Hround |].
  intros pre batch_size db0 Hpre Ho0. cbv zeta.
  pose proof (write_loop_spec (upsert_statement md5_hexdigest) self batch_size
                (pre ++ [d]) 0 (Session_open db0) (Z.le_refl 0) (fun _ => eq_refl))
    as [_ Hspec].
  cbn [Session_open sess_db sess_rows] in Hspec.
  rewrite staged_all_app, Hpre in Hspec. cbn [bind staged_all] in Hspec.
  rewrite (Hround db0 Ho0) in Hspec. cbn [bind] in Hspec.
  destruct Hspec as (He & _ & Hdb).
  unfold upsert. cbn [close error final]. split; [exact He |]. split; [exact Hdb |].
  eexists. split; [exact Hdb |].
  apply in_map_iff. exists r. split; [| assumption].
  unfold has_id. now rewrite Hid, String.eqb_refl.
Qed.

(** *** Identity and the dedup key *)

(** What a successful round of [insert] does to the view. *)
Lemma staged_insert_ok self db t d t' :
  staged (insert_statement md5_hexdigest) self db t d = Ok t' ->
  exists stmt rows,
    insert_statement md5_hexdigest self d = Ok stmt /\
    db_online db = true /\ t = Some rows /\
    existsb (has_id (ins_id stmt)) rows = false /\
    t' = Some (rows ++ [proposed_row stmt (db_now db)]).
Proof.
  unfold staged.
  destruct (insert_statement md5_hexdigest self d) as [stmt |] eqn:Hs; [| discriminate].
  cbn [bind]. unfold run_insert, visible_rows.
  destruct (db_online db); [| discriminate].
  destruct t as [rows |]; [| discriminate]. cbn [bind].
  destruct (fits (dimensions self) (ins_embedding stmt)); [| discriminate].
  cbn [negb].
  apply insert_statement_ok in Hs as Hs'. destruct Hs' as (v & _ & _ & Hc). rewrite Hc.
  destruct (existsb (has_id (ins_id stmt)) rows) eqn:Hex; [discriminate |].
  cbn [bind]. intros [= <-]. exists stmt, rows. auto 10.
Qed.

(** The rounds of [insert] only add rows. *)
Lemma staged_all_insert_keeps self db docs : forall rows t',
  staged_all (insert_statement md5_hexdigest) self db docs (Some rows) = Ok t' ->
  exists rows', t' = Some rows' /\ incl rows rows'.
Proof.
  induction docs as [| d docs IH]; intros rows t'; cbn [staged_all].
  - intros [= <-]. exists rows. split; [reflexivity | apply incl_refl].
  - destruct (staged (insert_statement md5_hexdigest) self db (Some rows) d)
      as [t1 |] eqn:Hd; [| discriminate].
    cbn [bind]. intros Hrest.
    apply staged_insert_ok in Hd as (stmt & rows0 & _ & _ & [= <-] & _ & ->).
    apply IH in Hrest as (rows' & -> & Hincl).
    exists rows'. split; [reflexivity |].
    intros x Hx. apply Hincl, in_or_app. now left.
Qed.

(** After the rounds of [insert], each document has a row with its
    content digest. *)
Lemma staged_all_insert_hash self db docs : forall t t' d,
  staged_all (insert_statement md5_hexdigest) self db docs t = Ok t' ->
  In d docs ->
  db_online db = true /\
  exists rows' r, t' = Some rows' /\ In r rows' /\
    row_content_hash r = md5_hexdigest (replace_nul (doc_content d)).
Proof.
  induction docs as [| d1 docs IH]; intros t t' d; cbn [staged_all]; [intros _ [] |].
  destruct (staged (insert_statement md5_hexdigest) self db t d1) as [t1 |] eqn:Hd1;
    [| discriminate].
  cbn [bind]. intros Hrest [<- | Hin].
  - apply staged_insert_ok in Hd1 as (stmt & rows0 & Hs & Ho & -> & _ & ->).
    split; [exact Ho |].
    apply staged_all_insert_keeps in Hrest as (rows' & -> & Hincl).
    exists rows', (proposed_row stmt (db_now db)). split; [reflexivity |]. split.
    + apply Hincl, in_or_app. right. now left.
    + apply insert_statement_ok in Hs as (v & _ & Hvals & _).
      unfold values_of in Hvals. cbn [proposed_row row_content_hash]. tauto.
  - eapply IH; eassumption.
Qed.

(** [doc_exists] looks for the digest of the normalised content. *)
Lemma doc_exists_key self d db rows :
  db_online db = true -> db_table db = Some rows ->
  doc_exists md5_hexdigest self d db
  = Ok (existsb (fun r => String.eqb (row_content_hash r)
                            (md5_hexdigest (replace_nul (doc_content d)))) rows).
Proof.
  intros Ho Ht. unfold doc_exists, visible_rows. rewrite Ho, Ht. cbn [bind].
  f_equal. clear Ht.
  induction rows as [| r rows IH]; cbn [filter existsb]; [reflexivity |].
  destruct (String.eqb (row_content_hash r) _); cbn [hd_error orb]; [reflexivity |].
  exact IH.
Qed.

Lemma doc_exists_found self d db rows r :
  db_online db = true -> db_table db = Some rows ->
  In r rows -> row_content_hash r = md5_hexdigest (replace_nul (doc_content d)) ->
  doc_exists md5_hexdigest self d db = Ok true.
Proof.
  intros Ho Ht Hr Hh. rewrite (doc_exists_key self d db rows Ho Ht). f_equal.
  apply existsb_exists. exists r. split; [assumption |].
  rewrite Hh. apply String.eqb_refl.
Qed.

(** The normalisation of the code is the normalisation of the
    specification. *)
Lemma replace_nul_spec (s : str) : replace_nul s = spec_normalized s.
Proof.
  unfold spec_normalized.
  induction s as [| c s IH]; cbn [replace_nul list_ascii_of_string flat_map];
    [reflexivity |].
  destruct (Ascii.eqb c zero); cbn [app string_of_list_ascii]; rewrite IH; reflexivity.
Qed.

(** C7.  Without an explicit id, the identity that [insert] and [upsert]
    assign is the digest of the content with every null character replaced
    by U+FFFD (the bytes EF BF BD) and every other character kept, the
    stored content is that normalised content and the stored content hash
    that digest, so equal contents get equal identities; [doc_exists]
    answers exactly whether some row of the table has a content hash equal
    to the digest of the content normalised in the same way; and so it
    finds every document of a finished [insert] and the last document of
    a finished [upsert]. *)
Theorem identity_is_content_digest (self : PgVector) (d : Document) :
  doc_id d = None ->
  (forall stmt,
      insert_statement md5_hexdigest self d = Ok stmt \/
      upsert_statement md5_hexdigest self d = Ok stmt ->
      ins_id stmt = md5_hexdigest (spec_normalized (doc_content d)) /\
      ins_content_hash stmt = md5_hexdigest (spec_normalized (doc_content d)) /\
      ins_content stmt = spec_normalized (doc_content d)) /\
  (forall d' stmt stmt',
      doc_id d' = None -> doc_content d' = doc_content d ->
      insert_statement md5_hexdigest self d = Ok stmt ->
      insert_statement md5_hexdigest self d' = Ok stmt' ->
      ins_id stmt = ins_id stmt') /\
  (forall db rows,
      db_online db = true -> db_table db = Some rows ->
      doc_exists md5_hexdigest self d db
      = Ok (existsb (fun r => String.eqb (row_content_hash r)
                                (md5_hexdigest (spec_normalized (doc_content d))))
                    rows)) /\
  (forall docs batch_size db,
      In d docs ->
      error (insert md5_hexdigest self docs batch_size db) = None ->
      doc_exists md5_hexdigest self d
        (final (insert md5_hexdigest self docs batch_size db)) = Ok true) /\
  (forall pre batch_size db,
      error (upsert md5_hexdigest self (pre ++ [d]) batch_size db) = None ->
      doc_exists md5_hexdigest self d
        (final (upsert md5_hexdigest self (pre ++ [d]) batch_size db)) = Ok true).
Proof.
  intros Hid.
  assert (forall d0 stmt, doc_id d0 = None ->
            insert_statement md5_hexdigest self d0 = Ok stmt ->
            ins_id stmt = md5_hexdigest (replace_nul (doc_content d0)) /\
            ins_content_hash stmt = md5_hexdigest (replace_nul (doc_content d0)) /\
            ins_content stmt = replace_nul (doc_content d0)) as Hins.
  { intros d0 stmt H0 Hs. apply insert_statement_ok in Hs as (v & _ & Hvals & _).
    unfold values_of in Hvals. rewrite H0 in Hvals. cbn [str_or] in Hvals. tauto. }
  split; [| split; [| split; [| split]]].
  - intros stmt [Hs | Hs]; rewrite <- replace_nul_spec; [now apply Hins |].
    apply upsert_statement_ok in Hs as (v & _ & Hvals & _).
    unfold values_of in Hvals. rewrite Hid in Hvals. cbn [str_or] in Hvals. tauto.
  - intros d' stmt stmt' Hid' Hc Hs Hs'.
    destruct (Hins d stmt Hid Hs) as [-> _].
    destruct (Hins d' stmt' Hid' Hs') as [-> _]. now rewrite Hc.
  - intros db rows Ho Ht. rewrite <- replace_nul_spec. now apply doc_exists_key.
  - intros docs batch_size db Hin He. unfold insert in *.
    pose proof (write_call_success _ _ _ _ _ He) as Hall.
    pose proof (write_call_keeps_database (insert_statement md5_hexdigest) self docs
                  batch_size db) as (Ho & _).
    destruct (staged_all_insert_hash _ _ _ _ _ d Hall Hin) as (Hon & rows' & r & Ht & Hr & Hh).
    eapply doc_exists_found; [congruence | exact Ht | exact Hr | exact Hh].
  - intros pre batch_size db He. unfold upsert in *.
    pose proof (write_call_success _ _ _ _ _ He) as Hall.
    pose proof (write_call_keeps_database (upsert_statement md5_hexdigest) self
                  (pre ++ [d]) batch_size db) as (Ho & _).
    rewrite staged_all_app in Hall.
    destruct (staged_all (upsert_statement md5_hexdigest) self db pre (db_table db))
      as [t1 |]; [| discriminate].
    cbn [bind staged_all] in Hall.
    destruct (staged (upsert_statement md5_hexdigest) self db t1 d) as [t2 |] eqn:Hd;
      [| discriminate].
    cbn [bind] in Hall.
    pose proof (staged_upsert_ok _ _ _ _ _ Hd) as (_ & _ & _ & Hon & _).
    apply staged_upsert_row in Hd as (stmt & rows' & Hs & -> & (r & Hr & Hrid) & Hall').
    injection Hall as Ht.
    apply upsert_statement_ok in Hs as (v & _ & Hvals & _).
    eapply doc_exists_found; [congruence | symmetry; exact Ht | exact Hr |].
    specialize (Hall' r Hr Hrid). apply (f_equal row_content_hash) in Hall'.
    cbn [replaced row_content_hash] in Hall'. unfold values_of in Hvals.
    rewrite <- Hall'. tauto.
Qed.

End WriteCalls.

(* ================================================================== *)
(** ** The properties on concrete collections *)
(* ================================================================== *)

(** C8 (defect in the code).  The key ["keys"] names no column, but the
    column collection has an attribute of that name, so the filter is not
    ignored: it adds the constant [false] and [search] returns nothing,
    where the same call without the filter returns both rows. *)
Theorem search_filter_on_collection_attribute :
  column_of_name "keys" = None /\
  search sample_collection_attr sample_proximity sample_collection "q" 5
         (Some [("keys", PyStr "x")]) two_rows_db
  = Ok ([], two_rows_db) /\
  search sample_collection_attr sample_proximity sample_collection "q" 5
         None two_rows_db
  = Ok ([document_of_row unnamed_row; document_of_row named_row], two_rows_db).
Proof. repeat split; reflexivity. Qed.

Example search_filter_on_unknown_key :
  search sample_collection_attr sample_proximity sample_collection "q" 5
         (Some [("colour", PyStr "x")]) two_rows_db
  = Ok ([document_of_row unnamed_row; document_of_row named_row], two_rows_db).
Proof. reflexivity. Qed.

Example search_filter_on_name :
  search sample_collection_attr sample_proximity sample_collection "q" 5
         (Some [("name", PyStr "two")]) two_rows_db
  = Ok ([document_of_row named_row], two_rows_db).
Proof. reflexivity. Qed.

Lemma search_orders_by_metric_witness :
  get_embedding (embedder sample_collection) "q" = Some sample_vector /\
  search sample_collection_attr sample_proximity sample_collection "q" 5 None two_rows_db
  = Ok ([document_of_row unnamed_row; document_of_row named_row], two_rows_db) /\
  sel_order_by (search_statement sample_collection_attr sample_collection sample_vector 5 None)
  = [e_cosine_distance sample_vector].
Proof.
  split; [reflexivity |]. split; [reflexivity |].
  apply (search_orders_by_metric sample_collection_attr sample_proximity
           sample_collection "q" 5 None two_rows_db two_rows_db
           [document_of_row unnamed_row; document_of_row named_row] sample_vector);
    reflexivity.
Defined.

Lemma search_results_from_projection_witness :
  search sample_collection_attr sample_proximity sample_collection "q" 1 None two_rows_db
  = Ok ([document_of_row unnamed_row], two_rows_db) /\
  (List.length [document_of_row unnamed_row] <= Z.to_nat 1)%nat.
Proof.
  split; [reflexivity |].
  apply (search_results_from_projection sample_collection_attr sample_proximity
           sample_collection "q" 1 None two_rows_db two_rows_db
           [document_of_row unnamed_row]).
  reflexivity.
Defined.

(** C4, as stated, fails: the table is missing, the statement cannot run,
    and the role may not create the extension; [create] raises inside the
    handler and [search] raises with it. *)
Lemma search_raises_when_provisioning_is_refused :
  get_embedding (embedder sample_collection) "q" = Some sample_vector /\
  fetch_neighbors sample_proximity sample_collection
    (search_statement sample_collection_attr sample_collection sample_vector 5 None)
    locked_db
  = Raise (ProgrammingError "relation does not exist") /\
  search sample_collection_attr sample_proximity sample_collection "q" 5 None locked_db
  = Raise (ProgrammingError "permission denied to create extension").
Proof. repeat split; reflexivity. Qed.

Lemma search_recovers_by_provisioning_witness :
  get_embedding (embedder sample_collection) "q" = Some sample_vector /\
  fetch_neighbors sample_proximity sample_collection
    (search_statement sample_collection_attr sample_collection sample_vector 5 None)
    cold_db
  = Raise (ProgrammingError "relation does not exist") /\
  exists db',
    search sample_collection_attr sample_proximity sample_collection "q" 5 None cold_db
    = Ok ([], db') /\ db_table db' = Some [].
Proof.
  split; [reflexivity |]. split; [reflexivity |].
  apply (search_recovers_by_provisioning sample_collection_attr sample_proximity
           sample_collection "q" 5 None cold_db sample_vector
           (ProgrammingError "relation does not exist"));
    reflexivity.
Defined.

Lemma writes_commit_in_batches_witness :
  1 <= 2 /\
  (error (insert sample_digest sample_collection [doc_a; doc_b; doc_c] 2 empty_db) = None /\
   Z.of_nat (commits (insert sample_digest sample_collection [doc_a; doc_b; doc_c] 2
                        empty_db)) = ceil_div 3 2) /\
  (error (insert sample_digest sample_collection
            [doc_a; doc_b; doc_c; doc_unembeddable; doc_a] 2 empty_db)
   = Some EmbeddingError /\
   Z.of_nat (commits (insert sample_digest sample_collection
                        [doc_a; doc_b; doc_c; doc_unembeddable; doc_a] 2 empty_db))
   = 3 / 2).
Proof.
  split; [lia |]. split.
  - destruct (writes_commit_in_batches sample_digest sample_collection
                [doc_a; doc_b; doc_c] 2 empty_db) as [[Hok _] _]; [lia |].
    destruct (Hok _ eq_refl) as (He & Hn & _). split; [exact He | exact Hn].
  - destruct (writes_commit_in_batches sample_digest sample_collection
                [doc_a; doc_b; doc_c; doc_unembeddable; doc_a] 2 empty_db)
      as [[_ Hfail] _]; [lia |].
    destruct (Hfail [doc_a; doc_b; doc_c] doc_unembeddable [doc_a] _ EmbeddingError
                eq_refl eq_refl eq_refl) as (He & Hn & _).
    split; [exact He | exact Hn].
Defined.

Lemma upsert_replaces_on_conflict_witness :
  upsert_statement sample_digest sample_collection doc_a_renamed = Ok stmt_a_renamed /\
  db_online empty_db = true /\
  fits (dimensions sample_collection) (ins_embedding stmt_a_renamed) = true /\
  In row_a [row_a] /\
  row_id row_a = ins_id stmt_a_renamed /\
  staged (upsert_statement sample_digest) sample_collection empty_db (Some [row_a])
         doc_a_renamed
  = Ok (Some [replaced stmt_a_renamed row_a]).
Proof.
  split; [reflexivity |]. split; [reflexivity |]. split; [reflexivity |].
  split; [simpl; auto |]. split; [reflexivity |].
  apply (upsert_replaces_on_conflict sample_digest sample_collection doc_a_renamed
           empty_db [row_a] row_a stmt_a_renamed);
    solve [reflexivity | simpl; auto].
Defined.

Lemma identity_is_content_digest_witness :
  doc_id doc_nul = None /\
  (exists stmt,
     insert_statement sample_digest sample_collection doc_nul = Ok stmt /\
     ins_id stmt = ("md5:" ++ content_nul_replaced)%string /\
     ins_content_hash stmt = ("md5:" ++ content_nul_replaced)%string /\
     ins_content stmt = content_nul_replaced) /\
  doc_exists sample_digest sample_collection doc_nul empty_db = Ok false /\
  doc_exists sample_digest sample_collection doc_nul (db_with [row_a]) = Ok false /\
  In doc_nul [doc_a; doc_nul] /\
  error (insert sample_digest sample_collection [doc_a; doc_nul] 1 empty_db) = None /\
  doc_exists sample_digest sample_collection doc_nul
    (final (insert sample_digest sample_collection [doc_a; doc_nul] 1 empty_db)) = Ok true.
Proof.
  assert (In doc_nul [doc_a; doc_nul]) as Hin by (simpl; auto).
  destruct (identity_is_content_digest sample_digest sample_collection doc_nul eq_refl)
    as (Hstmt & _ & Hkey & Hfound & _).
  split; [reflexivity |]. split.
  { eexists. split; [reflexivity |]. exact (Hstmt _ (or_introl eq_refl)). }
  split; [exact (Hkey empty_db [] eq_refl eq_refl) |].
  split; [exact (Hkey (db_with [row_a]) [row_a] eq_refl eq_refl) |].
  split; [exact Hin |]. split; [reflexivity |].
  exact (Hfound [doc_a; doc_nul] 1 empty_db Hin eq_refl).
Defined.

(* ================================================================== *)
(** ** Further properties of the methods *)
(* ================================================================== *)

(** *** Normalised content *)

Lemma no_nul_app (a b : str) : no_nul (a ++ b)%string = no_nul a && no_nul b.
Proof.
  induction a as [| c a IH]; cbn [String.append no_nul]; [reflexivity |].
  now rewrite IH, andb_assoc.
Qed.

Lemma no_nul_replace_nul (s : str) : no_nul (replace_nul s) = true.
Proof.
  induction s as [| c s IH]; cbn [replace_nul]; [reflexivity |].
  destruct (Ascii.eqb c zero) eqn:Hc.
  - rewrite no_nul_app, IH. reflexivity.
  - cbn [no_nul]. now rewrite Hc, IH.
Qed.

Lemma replace_nul_clean (s : str) : no_nul s = true -> replace_nul s = s.
Proof.
  induction s as [| c s IH]; cbn [no_nul replace_nul]; [reflexivity |].
  intros H. apply andb_true_iff in H as [Hc Hs]. apply negb_true_iff in Hc.
  now rewrite Hc, IH.
Qed.

(** *** What every run of the write loop keeps *)

Section WriteInvariants.

Variable statement : PgVector -> Document -> result Insert.
Variable self : PgVector.

(** A round reads the engine's availability and clock only. *)
Lemma staged_same_engine db db0 t d :
  set_table db None = set_table db0 None ->
  staged statement self db t d = staged statement self db0 t d.
Proof.
  intros H. rewrite <- (staged_set_table statement self db None t d), H.
  apply staged_set_table.
Qed.

(** A round that succeeds ran on a reachable engine with the table in
    place, and its vector has the length of the column. *)
Lemma staged_ok_inv db t d t' :
  staged statement self db t d = Ok t' ->
  exists stmt rows rows',
    statement self d = Ok stmt /\ db_online db = true /\ t = Some rows /\
    fits (dimensions self) (ins_embedding stmt) = true /\
    run_insert self stmt true (db_now db) (Some rows) = Ok rows' /\ t' = Some rows'.
Proof.
  unfold staged. destruct (statement self d) as [stmt |]; [| discriminate].
  cbn [bind].
  destruct (run_insert self stmt (db_online db) (db_now db) t) as [rows' |] eqn:Hr;
    [| discriminate].
  cbn [bind]. intros [= <-]. revert Hr. unfold run_insert at 1, visible_rows.
  destruct (db_online db) eqn:Ho; [| discriminate].
  destruct t as [rows |]; [| discriminate]. cbn [bind].
  destruct (fits (dimensions self) (ins_embedding stmt)) eqn:Hfit; [| discriminate].
  intros Hr. exists stmt, rows, rows'.
  repeat (split; [reflexivity |]). split; [exact Hfit |]. split; [| reflexivity].
  unfold run_insert, visible_rows. cbn [bind]. rewrite Hfit. exact Hr.
Qed.

(** A property of the table that every successful round keeps holds of the
    committed table at the end of the loop, whatever the batch size and
    however the loop ends. *)
Lemma write_loop_keeps (db0 : Database) (P : option (list Row) -> Prop) :
  (forall t d t', staged statement self db0 t d = Ok t' -> P t -> P t') ->
  forall docs batch_size counter sess,
    set_table (sess_db sess) None = set_table db0 None ->
    P (sess_rows sess) -> P (db_table (sess_db sess)) ->
    P (db_table (sess_db (fst (write_loop statement self docs batch_size counter sess)))).
Proof.
  intros Hround docs batch_size.
  induction docs as [| d docs IH]; intros counter sess Hdb Hview Hdur; cbn [write_loop].
  - destruct (0 <? counter); cbn [fst commit sess_db]; assumption.
  - rewrite stage_staged, (staged_same_engine _ db0) by assumption.
    destruct (staged statement self db0 (sess_rows sess) d) as [t1 |] eqn:Hd;
      cbn [bind fst]; [| assumption].
    pose proof (Hround _ _ _ Hd Hview) as H1.
    destruct (batch_size <=? counter + 1).
    + apply IH; cbn [commit sess_db sess_rows]; assumption.
    + apply IH; cbn [sess_db sess_rows]; assumption.
Qed.

Lemma write_call_keeps (P : option (list Row) -> Prop) docs batch_size db :
  (forall t d t', staged statement self db t d = Ok t' -> P t -> P t') ->
  P (db_table db) ->
  P (db_table (final (close (write_loop statement self docs batch_size 0
                               (Session_open db))))).
Proof.
  intros Hround H0. cbn [close final].
  apply (write_loop_keeps db P Hround); cbn [Session_open sess_db sess_rows];
    [reflexivity | assumption | assumption].
Qed.

(** What is committed at the end of the loop is what was committed before
    it, or the view after the rounds of the first [n] documents. *)
Lemma write_loop_prefix docs batch_size : forall counter sess,
  db_table (sess_db (fst (write_loop statement self docs batch_size counter sess)))
  = db_table (sess_db sess) \/
  exists n, (n <= List.length docs)%nat /\
    staged_all statement self (sess_db sess) (firstn n docs) (sess_rows sess)
    = Ok (db_table (sess_db (fst (write_loop statement self docs batch_size counter sess)))).
Proof.
  induction docs as [| d docs IH]; intros counter sess; cbn [write_loop].
  - destruct (0 <? counter); cbn [fst commit sess_db]; [| now left].
    right. exists 0%nat. split; [apply Nat.le_refl | reflexivity].
  - rewrite stage_staged.
    destruct (staged statement self (sess_db sess) (sess_rows sess) d) as [t1 |] eqn:Hd;
      cbn [bind fst]; [| now left].
    destruct (batch_size <=? counter + 1).
    + right.
      destruct (IH 0 (commit {| sess_db := sess_db sess; sess_rows := t1;
                                sess_commits := sess_commits sess |})) as [H | (n & Hn & H)];
        cbn [commit sess_db sess_rows] in H.
      * exists 1%nat. split; [cbn [List.length]; lia |].
        cbn [firstn staged_all]. rewrite Hd. cbn [bind]. now rewrite H.
      * exists (S n). split; [cbn [List.length]; lia |].
        cbn [firstn staged_all]. rewrite Hd. cbn [bind].
        now rewrite staged_all_set_table in H.
    + destruct (IH (counter + 1) {| sess_db := sess_db sess; sess_rows := t1;
                                    sess_commits := sess_commits sess |})
        as [H | (n & Hn & H)]; cbn [sess_db sess_rows] in H.
      * now left.
      * right. exists (S n). split; [cbn [List.length]; lia |].
        cbn [firstn staged_all]. rewrite Hd. cbn [bind]. exact H.
Qed.

Lemma write_call_prefix docs batch_size db :
  exists n, (n <= List.length docs)%nat /\
    staged_all statement self db (firstn n docs) (db_table db)
    = Ok (db_table (final (close (write_loop statement self docs batch_size 0
                                    (Session_open db))))).
Proof.
  cbn [close final].
  destruct (write_loop_prefix docs batch_size 0 (Session_open db)) as [H | H];
    cbn [Session_open sess_db sess_rows] in H.
  - exists 0%nat. split; [apply Nat.le_0_l |]. cbn [firstn staged_all]. now rewrite H.
  - exact H.
Qed.

(** With a batch size of one or less the loop commits after every
    document, as with a batch size of one. *)
Lemma write_loop_small_batch docs batch_size : forall sess,
  batch_size <= 1 ->
  write_loop statement self docs batch_size 0 sess
  = write_loop statement self docs 1 0 sess.
Proof.
  induction docs as [| d docs IH]; intros sess Hb; cbn [write_loop]; [reflexivity |].
  destruct (stage statement self d sess) as [sess1 |]; [| reflexivity].
  assert ((batch_size <=? 0 + 1) = true) as -> by (apply Z.leb_le; lia).
  cbn [Z.add Z.leb Z.compare Pos.compare Pos.compare_cont]. now apply IH.
Qed.

End WriteInvariants.

(** *** The rows that [insert] and [upsert] leave *)

Section WrittenRows.

Variable md5_hexdigest : str -> str.

Lemma values_clean self d v stmt :
  values_of d v (md5_hexdigest (replace_nul (doc_content d))) stmt ->
  fits (dimensions self) (ins_embedding stmt) = true ->
  (forall now, clean_row md5_hexdigest self (proposed_row stmt now)) /\
  (forall r, clean_row md5_hexdigest self (replaced stmt r)).
Proof.
  intros (_ & _ & _ & Hc & _ & _ & Hh) Hfit.
  split; intros; unfold clean_row; cbn [proposed_row replaced row_content row_content_hash
                                          row_embedding];
    rewrite Hc, Hh; auto using no_nul_replace_nul.
Qed.

(** A successful round of [insert], in full. *)
Lemma staged_insert_inv self db t d t' :
  staged (insert_statement md5_hexdigest) self db t d = Ok t' ->
  exists stmt rows,
    insert_statement md5_hexdigest self d = Ok stmt /\
    db_online db = true /\ t = Some rows /\
    fits (dimensions self) (ins_embedding stmt) = true /\
    ins_id stmt = identity md5_hexdigest d /\
    existsb (has_id (ins_id stmt)) rows = false /\
    t' = Some (rows ++ [proposed_row stmt (db_now db)]).
Proof.
  intros H.
  destruct (staged_ok_inv _ _ _ _ _ _ H) as (stmt0 & _ & _ & Hs0 & _ & _ & Hfit & _).
  apply staged_insert_ok in H as (stmt & rows & Hs & Ho & Ht & Hex & Ht').
  assert (stmt0 = stmt) as -> by congruence.
  exists stmt, rows. repeat (split; [assumption |]). split; [| now split].
  apply insert_statement_ok in Hs as (v & _ & Hvals & _). apply Hvals.
Qed.

(** A successful round of [upsert], in full. *)
Lemma staged_upsert_inv self db t d t' :
  staged (upsert_statement md5_hexdigest) self db t d = Ok t' ->
  exists stmt rows,
    upsert_statement md5_hexdigest self d = Ok stmt /\
    db_online db = true /\ t = Some rows /\
    fits (dimensions self) (ins_embedding stmt) = true /\
    ins_id stmt = identity md5_hexdigest d /\
    t' = Some (if existsb (has_id (ins_id stmt)) rows
               then map (fun r => if has_id (ins_id stmt) r then replaced stmt r else r) rows
               else rows ++ [proposed_row stmt (db_now db)]).
Proof.
  intros H. apply staged_upsert_ok in H as (stmt & rows & Hs & Ho & Ht & Hfit & Ht').
  exists stmt, rows. repeat (split; [assumption |]). split; [| assumption].
  apply upsert_statement_ok in Hs as (v & _ & Hvals & _). apply Hvals.
Qed.

Lemma insert_round_clean self db rows d t' :
  staged (insert_statement md5_hexdigest) self db (Some rows) d = Ok t' ->
  Forall (clean_row md5_hexdigest self) rows ->
  exists rows', t' = Some rows' /\ Forall (clean_row md5_hexdigest self) rows'.
Proof.
  intros H Hrows.
  apply staged_insert_inv in H as (stmt & rows0 & Hs & _ & [= <-] & Hfit & _ & _ & ->).
  apply insert_statement_ok in Hs as (v & _ & Hvals & _).
  destruct (values_clean self d v stmt Hvals Hfit) as [Hnew _].
  eexists. split; [reflexivity |].
  apply Forall_app. split; [assumption |]. constructor; [apply Hnew | constructor].
Qed.

Lemma upsert_round_clean self db rows d t' :
  staged (upsert_statement md5_hexdigest) self db (Some rows) d = Ok t' ->
  Forall (clean_row md5_hexdigest self) rows ->
  exists rows', t' = Some rows' /\ Forall (clean_row md5_hexdigest self) rows'.
Proof.
  intros H Hrows.
  apply staged_upsert_inv in H as (stmt & rows0 & Hs & _ & [= <-] & Hfit & _ & ->).
  apply upsert_statement_ok in Hs as (v & _ & Hvals & _).
  destruct (values_clean self d v stmt Hvals Hfit) as [Hnew Hrep].
  eexists. split; [reflexivity |].
  destruct (existsb (has_id (ins_id stmt)) rows).
  - apply Forall_map. apply Forall_impl with (2 := Hrows).
    intros r Hr. destruct (has_id (ins_id stmt) r); [apply Hrep | exact Hr].
  - apply Forall_app. split; [assumption |]. constructor; [apply Hnew | constructor].
Qed.

(** X1.  Whatever [insert] and [upsert] leave in the table is well formed
    if the table was: for any documents and batch size, and whether the call
    ends normally or with an exception, every row has a content free of null
    characters, a content hash that is the digest of the stored content, and
    an embedding of the length of the vector column. *)
Theorem writes_keep_rows_clean (self : PgVector) (docs : list Document)
        (batch_size : Z) (db : Database) (rows : list Row) :
  db_table db = Some rows ->
  Forall (clean_row md5_hexdigest self) rows ->
  (exists rows',
     db_table (final (insert md5_hexdigest self docs batch_size db)) = Some rows' /\
     Forall (clean_row md5_hexdigest self) rows') /\
  (exists rows',
     db_table (final (upsert md5_hexdigest self docs batch_size db)) = Some rows' /\
     Forall (clean_row md5_hexdigest self) rows').
Proof.
  intros Ht Hrows. split.
  - apply (write_call_keeps (insert_statement md5_hexdigest) self
             (fun t => exists rows', t = Some rows' /\
                                     Forall (clean_row md5_hexdigest self) rows')).
    + intros t d t' Hd (rows0 & -> & H0). eapply insert_round_clean; eassumption.
    + eauto.
  - apply (write_call_keeps (upsert_statement md5_hexdigest) self
             (fun t => exists rows', t = Some rows' /\
                                     Forall (clean_row md5_hexdigest self) rows')).
    + intros t d t' Hd (rows0 & -> & H0). eapply upsert_round_clean; eassumption.
    + eauto.
Qed.

(** The rounds of [insert], when all succeed, add one row per document, in
    input order. *)
Lemma staged_all_insert_rows self db docs : forall rows t',
  staged_all (insert_statement md5_hexdigest) self db docs (Some rows) = Ok t' ->
  exists stmts,
    Forall2 (fun d stmt => insert_statement md5_hexdigest self d = Ok stmt) docs stmts /\
    t' = Some (rows ++ map (fun stmt => proposed_row stmt (db_now db)) stmts).
Proof.
  induction docs as [| d docs IH]; intros rows t'; cbn [staged_all].
  - intros [= <-]. exists []. split; [constructor |]. cbn [map]. now rewrite app_nil_r.
  - destruct (staged (insert_statement md5_hexdigest) self db (Some rows) d)
      as [t1 |] eqn:Hd; [| discriminate].
    cbn [bind]. intros Hrest.
    apply staged_insert_inv in Hd as (stmt & rows0 & Hs & _ & [= <-] & _ & _ & _ & ->).
    apply IH in Hrest as (stmts & Hall & ->).
    exists (stmt :: stmts). split; [now constructor |].
    cbn [map]. now rewrite <- app_assoc.
Qed.

(** X3.  [insert] only appends: whatever the batch size and however the
    call ends, the table afterwards is the table before, unchanged and in
    place, followed by one new row for each of the first [n] documents, in
    input order; a call that ends normally has added a row for every
    document. *)
Theorem insert_only_appends (self : PgVector) (docs : list Document)
        (batch_size : Z) (db : Database) (rows : list Row) :
  db_table db = Some rows ->
  exists n stmts,
    (n <= List.length docs)%nat /\
    Forall2 (fun d stmt => insert_statement md5_hexdigest self d = Ok stmt)
            (firstn n docs) stmts /\
    db_table (final (insert md5_hexdigest self docs batch_size db))
    = Some (rows ++ map (fun stmt => proposed_row stmt (db_now db)) stmts) /\
    (error (insert md5_hexdigest self docs batch_size db) = None ->
     n = List.length docs).
Proof.
  intros Ht. unfold insert.
  destruct (error (close (write_loop (insert_statement md5_hexdigest) self docs
                            batch_size 0 (Session_open db)))) as [e |] eqn:He.
  - destruct (write_call_prefix (insert_statement md5_hexdigest) self docs batch_size db)
      as (n & Hn & Hall).
    rewrite Ht in Hall. apply staged_all_insert_rows in Hall as (stmts & Hstmts & Hfin).
    exists n, stmts. repeat (split; [assumption |]). discriminate.
  - pose proof (write_call_success _ _ _ _ _ He) as Hall.
    rewrite Ht in Hall. apply staged_all_insert_rows in Hall as (stmts & Hstmts & Hfin).
    exists (List.length docs), stmts. rewrite firstn_all.
    split; [apply Nat.le_refl |]. repeat (split; [assumption |]). reflexivity.
Qed.

(** *** Keys *)

Lemma has_id_absent id rows :
  existsb (has_id id) rows = false -> ~ In id (map row_id rows).
Proof.
  intros Hex Hin. apply in_map_iff in Hin as (r & <- & Hr).
  assert (existsb (has_id (row_id r)) rows = true) as Habs; [| congruence].
  apply existsb_exists. exists r. split; [assumption |].
  unfold has_id. apply String.eqb_refl.
Qed.

Lemma has_id_present id rows :
  existsb (has_id id) rows = true <-> In id (map row_id rows).
Proof.
  rewrite existsb_exists, in_map_iff. unfold has_id.
  split; intros (r & H1 & H2).
  - exists r. apply String.eqb_eq in H2. auto.
  - exists r. split; [assumption |]. now apply String.eqb_eq.
Qed.

Lemma map_row_key_replaced stmt id rows :
  map row_key (map (fun r => if has_id id r then replaced stmt r else r) rows)
  = map row_key rows.
Proof.
  rewrite map_map. apply map_ext. intros r. now destruct (has_id id r).
Qed.

Lemma map_row_id_key rows : map row_id rows = map fst (map row_key rows).
Proof. rewrite map_map. reflexivity. Qed.

(** The rounds of [upsert] keep the key and the creation time of every row
    in place, and add at most one row per document. *)
Lemma staged_all_upsert_keys self db docs : forall rows t',
  staged_all (upsert_statement md5_hexdigest) self db docs (Some rows) = Ok t' ->
  exists rows' added,
    t' = Some rows' /\ map row_key rows' = map row_key rows ++ added /\
    (List.length added <= List.length docs)%nat.
Proof.
  induction docs as [| d docs IH]; intros rows t'; cbn [staged_all].
  - intros [= <-]. exists rows, []. rewrite app_nil_r. auto.
  - destruct (staged (upsert_statement md5_hexdigest) self db (Some rows) d)
      as [t1 |] eqn:Hd; [| discriminate].
    cbn [bind]. intros Hrest.
    apply staged_upsert_inv in Hd as (stmt & rows0 & _ & _ & [= <-] & _ & _ & ->).
    apply IH in Hrest as (rows' & added & -> & Hkeys & Hlen).
    destruct (existsb (has_id (ins_id stmt)) rows).
    + rewrite map_row_key_replaced in Hkeys.
      exists rows', added. split; [reflexivity |]. split; [assumption |].
      cbn [List.length]. lia.
    + rewrite map_app, <- app_assoc in Hkeys.
      exists rows'. eexists. split; [reflexivity |]. split; [exact Hkeys |].
      cbn [map app List.length]. lia.
Qed.

(** X4.  [upsert] never removes nor reorders a row and never changes a key
    or a creation time: whatever the batch size and however the call ends,
    the keys and creation times of the rows stored before are those of the
    first rows afterwards, in the same order, and no more rows are added
    than there are documents. *)
Theorem upsert_keeps_rows_in_place (self : PgVector) (docs : list Document)
        (batch_size : Z) (db : Database) (rows : list Row) :
  db_table db = Some rows ->
  exists rows' added,
    db_table (final (upsert md5_hexdigest self docs batch_size db)) = Some rows' /\
    map row_key rows' = map row_key rows ++ added /\
    (List.length rows <= List.length rows' <= List.length rows + List.length docs)%nat.
Proof.
  intros Ht. unfold upsert.
  destruct (write_call_prefix (upsert_statement md5_hexdigest) self docs batch_size db)
    as (n & Hn & Hall).
  rewrite Ht in Hall. apply staged_all_upsert_keys in Hall as (rows' & added & Hfin & Hk & Hl).
  exists rows', added. split; [now rewrite <- Hfin |]. split; [assumption |].
  apply (f_equal (@List.length _)) in Hk.
  rewrite length_app, !length_map in Hk. rewrite length_firstn in Hl. lia.
Qed.

Lemma insert_round_unique self db rows d t' :
  staged (insert_statement md5_hexdigest) self db (Some rows) d = Ok t' ->
  NoDup (map row_id rows) ->
  exists rows', t' = Some rows' /\ NoDup (map row_id rows').
Proof.
  intros H Hrows.
  apply staged_insert_inv in H as (stmt & rows0 & _ & _ & [= <-] & _ & _ & Hex & ->).
  eexists. split; [reflexivity |].
  rewrite map_app. cbn [map proposed_row row_id].
  apply NoDup_app; [assumption | repeat constructor; intros [] |].
  intros id Hid [<- | []]. revert Hid. now apply has_id_absent.
Qed.

Lemma upsert_round_unique self db rows d t' :
  staged (upsert_statement md5_hexdigest) self db (Some rows) d = Ok t' ->
  NoDup (map row_id rows) ->
  exists rows', t' = Some rows' /\ NoDup (map row_id rows').
Proof.
  intros H Hrows.
  apply staged_upsert_inv in H as (stmt & rows0 & _ & _ & [= <-] & _ & _ & ->).
  eexists. split; [reflexivity |].
  destruct (existsb (has_id (ins_id stmt)) rows) eqn:Hex.
  - now rewrite map_row_id_key, map_row_key_replaced, <- map_row_id_key.
  - rewrite map_app. cbn [map proposed_row row_id].
    apply NoDup_app; [assumption | repeat constructor; intros [] |].
    intros id Hid [<- | []]. revert Hid. now apply has_id_absent.
Qed.

(** X5.  The primary key stays a key: if no two rows of the table share an
    id, no two rows share one after [insert] or [upsert], for any
    documents, any batch size and any way the call ends. *)
Theorem writes_keep_ids_unique (self : PgVector) (docs : list Document)
        (batch_size : Z) (db : Database) (rows : list Row) :
  db_table db = Some rows ->
  NoDup (map row_id rows) ->
  (exists rows',
     db_table (final (insert md5_hexdigest self docs batch_size db)) = Some rows' /\
     NoDup (map row_id rows')) /\
  (exists rows',
     db_table (final (upsert md5_hexdigest self docs batch_size db)) = Some rows' /\
     NoDup (map row_id rows')).
Proof.
  intros Ht Hrows. split.
  - apply (write_call_keeps (insert_statement md5_hexdigest) self
             (fun t => exists rows', t = Some rows' /\ NoDup (map row_id rows'))).
    + intros t d t' Hd (rows0 & -> & H0). eapply insert_round_unique; eassumption.
    + eauto.
  - apply (write_call_keeps (upsert_statement md5_hexdigest) self
             (fun t => exists rows', t = Some rows' /\ NoDup (map row_id rows'))).
    + intros t d t' Hd (rows0 & -> & H0). eapply upsert_round_unique; eassumption.
    + eauto.
Qed.

End WrittenRows.

(** *** How calls of [insert] and [upsert] end and compose *)

Section WriteOutcomes.

Variable md5_hexdigest : str -> str.

(** A loop whose first round raises ends there, with nothing committed. *)
Lemma write_loop_first_round_fails statement self d rest batch_size db e :
  staged statement self db (db_table db) d = Raise e ->
  close (write_loop statement self (d :: rest) batch_size 0 (Session_open db))
  = {| final := db; commits := 0; error := Some e |}.
Proof.
  intros H. cbn [write_loop]. rewrite stage_staged.
  cbn [Session_open sess_db sess_rows]. rewrite H. reflexivity.
Qed.

(** X6.  A provider whose vector has not the length the collection
    declares makes the write fail at that document: on a table that is in
    place, [insert] and [upsert] end with the engine's data error on the
    first document, commit nothing and leave the database as it was. *)
Theorem write_rejects_wrong_dimension (self : PgVector) (d : Document)
        (rest : list Document) (batch_size : Z) (db : Database)
        (rows : list Row) (v : vector) :
  db_online db = true -> db_table db = Some rows ->
  get_embedding (embedder self) (doc_content d) = Some v ->
  Z.of_nat (List.length v) <> dimensions self ->
  insert md5_hexdigest self (d :: rest) batch_size db
  = {| final := db; commits := 0;
       error := Some (DataError "expected another number of dimensions") |} /\
  upsert md5_hexdigest self (d :: rest) batch_size db
  = {| final := db; commits := 0;
       error := Some (DataError "expected another number of dimensions") |}.
Proof.
  intros Ho Ht Hv Hlen.
  assert (fits (dimensions self) (Some v) = false) as Hfit.
  { unfold fits. now apply Z.eqb_neq. }
  split; apply write_loop_first_round_fails;
    unfold staged, upsert_statement, insert_statement, Document_embed;
    rewrite Hv; cbn [bind doc_content doc_embedding ins_embedding];
    unfold run_insert, visible_rows; rewrite Ho, Ht;
    cbn [bind ins_embedding]; rewrite Hfit; reflexivity.
Qed.

(** X7.  A batch size of one or less, zero and negative sizes included,
    is a batch size of one, for [insert] and for [upsert] alike: the call
    is the same, every staged document is committed on its own, a call that
    ends normally has made one commit per document, and a call that fails
    at a document has committed exactly the documents before it. *)
Theorem small_batch_commits_each_document (self : PgVector)
        (docs : list Document) (batch_size : Z) (db : Database) :
  batch_size <= 1 ->
  insert md5_hexdigest self docs batch_size db = insert md5_hexdigest self docs 1 db /\
  upsert md5_hexdigest self docs batch_size db = upsert md5_hexdigest self docs 1 db /\
  (error (insert md5_hexdigest self docs batch_size db) = None ->
   commits (insert md5_hexdigest self docs batch_size db) = List.length docs) /\
  (error (upsert md5_hexdigest self docs batch_size db) = None ->
   commits (upsert md5_hexdigest self docs batch_size db) = List.length docs) /\
  (forall pre d post t e,
      docs = pre ++ d :: post ->
      staged_all (insert_statement md5_hexdigest) self db pre (db_table db) = Ok t ->
      staged (insert_statement md5_hexdigest) self db t d = Raise e ->
      error (insert md5_hexdigest self docs batch_size db) = Some e /\
      commits (insert md5_hexdigest self docs batch_size db) = List.length pre /\
      db_table (final (insert md5_hexdigest self docs batch_size db)) = t) /\
  (forall pre d post t e,
      docs = pre ++ d :: post ->
      staged_all (upsert_statement md5_hexdigest) self db pre (db_table db) = Ok t ->
      staged (upsert_statement md5_hexdigest) self db t d = Raise e ->
      error (upsert md5_hexdigest self docs batch_size db) = Some e /\
      commits (upsert md5_hexdigest self docs batch_size db) = List.length pre /\
      db_table (final (upsert md5_hexdigest self docs batch_size db)) = t).
Proof.
  intros Hb.
  assert (forall statement,
            close (write_loop statement self docs batch_size 0 (Session_open db))
            = close (write_loop statement self docs 1 0 (Session_open db))) as Hsame.
  { intros statement. now rewrite write_loop_small_batch. }
  assert (forall statement,
            error (close (write_loop statement self docs 1 0 (Session_open db))) = None ->
            commits (close (write_loop statement self docs 1 0 (Session_open db)))
            = List.length docs) as Hcount.
  { intros statement He. pose proof (write_call_success _ _ _ _ _ He) as Hall.
    pose proof (write_loop_commits statement self 1 docs 0 (Session_open db) _
                  ltac:(lia) Hall) as Hn.
    cbn [Session_open sess_commits] in Hn. cbn [close commits].
    unfold ceil_div in Hn. rewrite Z.div_1_r in Hn. lia. }
  assert (forall statement pre d post t e,
            docs = pre ++ d :: post ->
            staged_all statement self db pre (db_table db) = Ok t ->
            staged statement self db t d = Raise e ->
            error (close (write_loop statement self docs 1 0 (Session_open db))) = Some e /\
            commits (close (write_loop statement self docs 1 0 (Session_open db)))
            = List.length pre /\
            db_table (final (close (write_loop statement self docs 1 0 (Session_open db))))
            = t) as Hfails.
  { intros statement pre d post t e -> Hpre Hd.
    destruct (close_write_loop_batches statement self (pre ++ d :: post) 1 db ltac:(lia))
      as [_ Hfail].
    destruct (Hfail pre d post t e eq_refl Hpre Hd) as (He & Hn & Hdur).
    rewrite Z.div_1_r in Hn, Hdur. rewrite Z.mul_1_l, Nat2Z.id, firstn_all in Hdur.
    split; [exact He |]. split; [lia |]. congruence. }
  unfold insert, upsert. rewrite !Hsame.
  split; [reflexivity |]. split; [reflexivity |].
  split; [apply Hcount |]. split; [apply Hcount |].
  split; apply Hfails.
Qed.

(** After the rounds of [insert], the row of each document is in the
    table. *)
Lemma staged_all_insert_row self db docs : forall t t' d,
  staged_all (insert_statement md5_hexdigest) self db docs t = Ok t' ->
  In d docs ->
  exists stmt rows',
    insert_statement md5_hexdigest self d = Ok stmt /\
    db_online db = true /\
    fits (dimensions self) (ins_embedding stmt) = true /\
    ins_id stmt = identity md5_hexdigest d /\
    t' = Some rows' /\ In (proposed_row stmt (db_now db)) rows'.
Proof.
  induction docs as [| d1 docs IH]; intros t t' d; cbn [staged_all]; [intros _ [] |].
  destruct (staged (insert_statement md5_hexdigest) self db t d1) as [t1 |] eqn:Hd1;
    [| discriminate].
  cbn [bind]. intros Hrest [<- | Hin].
  - apply staged_insert_inv in Hd1 as (stmt & rows0 & Hs & Ho & -> & Hfit & Hid & _ & ->).
    apply staged_all_insert_keeps in Hrest as (rows' & -> & Hincl).
    exists stmt, rows'. repeat (split; [assumption |]). split; [reflexivity |].
    apply Hincl, in_or_app. right. now left.
  - eapply IH; eassumption.
Qed.

(** X8.  [insert] does not overwrite: once a call of [insert] has stored
    a document, a later call that begins with the same document is refused
    by the engine for the duplicate key, commits nothing, and leaves the
    database as the first call left it. *)
Theorem insert_rejects_stored_document (self : PgVector) (docs : list Document)
        (batch_size : Z) (db : Database) (d : Document) (rest : list Document)
        (batch_size' : Z) :
  In d docs ->
  error (insert md5_hexdigest self docs batch_size db) = None ->
  insert md5_hexdigest self (d :: rest) batch_size'
         (final (insert md5_hexdigest self docs batch_size db))
  = {| final := final (insert md5_hexdigest self docs batch_size db);
       commits := 0;
       error := Some (IntegrityError (identity md5_hexdigest d)) |}.
Proof.
  intros Hin He. unfold insert in *.
  pose proof (write_call_success _ _ _ _ _ He) as Hall.
  pose proof (write_call_keeps_database (insert_statement md5_hexdigest) self docs
                batch_size db) as (Ho & _).
  destruct (staged_all_insert_row _ _ _ _ _ d Hall Hin)
    as (stmt & rows' & Hs & Hon & Hfit & Hid & Ht & Hr).
  apply write_loop_first_round_fails.
  unfold staged. rewrite Hs. cbn [bind]. unfold run_insert, visible_rows.
  rewrite Ho, Hon, Ht. cbn [bind]. rewrite Hfit. cbn [negb].
  assert (existsb (has_id (ins_id stmt)) rows' = true) as ->.
  { apply existsb_exists. eexists. split; [exact Hr |].
    unfold has_id. cbn [proposed_row row_id]. apply String.eqb_refl. }
  apply insert_statement_ok in Hs as (v & _ & _ & ->). now rewrite Hid.
Qed.

(** A loop of one document whose round succeeds commits once. *)
Lemma write_loop_single statement self d batch_size db t :
  staged statement self db (db_table db) d = Ok t ->
  close (write_loop statement self [d] batch_size 0 (Session_open db))
  = {| final := set_table db t; commits := 1; error := None |}.
Proof.
  intros H. cbn [write_loop]. rewrite stage_staged.
  cbn [Session_open sess_db sess_rows]. rewrite H. cbn [bind].
  destruct (batch_size <=? 0 + 1); reflexivity.
Qed.

(** X9.  [upsert] can be repeated: after a call of [upsert] that ended
    normally, upserting its last document once more succeeds with one
    commit and leaves the database exactly as it was. *)
Theorem upsert_again_changes_nothing (self : PgVector) (pre : list Document)
        (d : Document) (batch_size : Z) (db : Database) (batch_size' : Z) :
  error (upsert md5_hexdigest self (pre ++ [d]) batch_size db) = None ->
  upsert md5_hexdigest self [d] batch_size'
         (final (upsert md5_hexdigest self (pre ++ [d]) batch_size db))
  = {| final := final (upsert md5_hexdigest self (pre ++ [d]) batch_size db);
       commits := 1; error := None |}.
Proof.
  intros He. unfold upsert in *.
  pose proof (write_call_success _ _ _ _ _ He) as Hall.
  pose proof (write_call_keeps_database (upsert_statement md5_hexdigest) self
                (pre ++ [d]) batch_size db) as (Ho & Hnow & _).
  cbv zeta in Ho, Hnow.
  set (db1 := final (close (write_loop (upsert_statement md5_hexdigest) self
                              (pre ++ [d]) batch_size 0 (Session_open db)))) in *.
  rewrite staged_all_app in Hall.
  destruct (staged_all (upsert_statement md5_hexdigest) self db pre (db_table db))
    as [t1 |]; [| discriminate].
  cbn [bind staged_all] in Hall.
  destruct (staged (upsert_statement md5_hexdigest) self db t1 d) as [t2 |] eqn:Hd;
    [| discriminate].
  cbn [bind] in Hall. injection Hall as Ht.
  pose proof (staged_upsert_inv _ _ _ _ _ _ Hd) as (stmt0 & _ & Hs0 & Hon & _ & Hfit & _).
  apply staged_upsert_row in Hd as (stmt & rows' & Hs & -> & (r & Hr & Hrid) & Hkeep).
  assert (stmt0 = stmt) as -> by congruence.
  rewrite (write_loop_single _ _ _ _ _ (Some rows')).
  - now rewrite Ht, set_table_same.
  - unfold staged. rewrite Hs. cbn [bind]. unfold run_insert, visible_rows.
    rewrite Ho, Hon, <- Ht. cbn [bind]. rewrite Hfit. cbn [negb].
    assert (existsb (has_id (ins_id stmt)) rows' = true) as ->.
    { apply existsb_exists. exists r. split; [assumption |].
      unfold has_id. rewrite Hrid. apply String.eqb_refl. }
    apply upsert_statement_ok in Hs as (v & _ & _ & ->). cbn [bind].
    do 2 f_equal. rewrite <- (map_id rows') at 2. apply map_ext_in.
    intros x Hx. destruct (has_id (ins_id stmt) x) eqn:Hid; [| reflexivity].
    rewrite do_update_upsert_set. apply Hkeep; [assumption |].
    unfold has_id in Hid. now apply String.eqb_eq in Hid.
Qed.

(** A round of [insert] that succeeds is a round of [upsert]. *)
Lemma stage_insert_upsert self d sess sess1 :
  stage (insert_statement md5_hexdigest) self d sess = Ok sess1 ->
  stage (upsert_statement md5_hexdigest) self d sess = Ok sess1.
Proof.
  rewrite !stage_staged.
  destruct (staged (insert_statement md5_hexdigest) self (sess_db sess) (sess_rows sess) d)
    as [t1 |] eqn:Hd; [| discriminate].
  cbn [bind]. intros [= <-].
  apply staged_insert_inv in Hd as (stmt & rows & Hs & Ho & Ht & Hfit & _ & Hex & ->).
  unfold staged, upsert_statement. rewrite Hs. cbn [bind].
  unfold run_insert, visible_rows. rewrite Ho, Ht. cbn [bind ins_embedding ins_id].
  rewrite Hfit, Hex. reflexivity.
Qed.

(** X10.  [upsert] extends [insert]: on every input on which [insert]
    ends normally, [upsert] with the same documents and batch size does the
    same commits and leaves the same database. *)
Theorem upsert_agrees_with_insert (self : PgVector) (docs : list Document)
        (batch_size : Z) (db : Database) :
  error (insert md5_hexdigest self docs batch_size db) = None ->
  upsert md5_hexdigest self docs batch_size db
  = insert md5_hexdigest self docs batch_size db.
Proof.
  unfold insert, upsert. cbn [close error]. intros He. f_equal.
  generalize dependent (Session_open db). generalize 0.
  induction docs as [| d docs IH]; intros counter sess; cbn [write_loop];
    [reflexivity |].
  destruct (stage (insert_statement md5_hexdigest) self d sess) as [sess1 |] eqn:Hd;
    [| discriminate].
  rewrite (stage_insert_upsert _ _ _ _ Hd).
  destruct (batch_size <=? counter + 1); apply IH.
Qed.

End WriteOutcomes.

(** *** Looking up what was written *)

Section Lookups.

Variable md5_hexdigest : str -> str.

Lemma first_of_filter {A} (f : A -> bool) (l : list A) :
  match hd_error (filter f l) with Some _ => true | None => false end = existsb f l.
Proof.
  induction l as [| x l IH]; cbn [filter existsb]; [reflexivity |].
  destruct (f x); cbn [hd_error orb]; [reflexivity | exact IH].
Qed.

Lemma id_exists_key self id db rows :
  db_online db = true -> db_table db = Some rows ->
  id_exists self id db = Ok (existsb (has_id id) rows).
Proof.
  intros Ho Ht. unfold id_exists, visible_rows. rewrite Ho, Ht. cbn [bind].
  now rewrite first_of_filter.
Qed.

Lemma name_exists_key self name db rows :
  db_online db = true -> db_table db = Some rows ->
  name_exists self name db
  = Ok (existsb (fun r => pyvalue_eqb (cell c_name r) (PyStr name)) rows).
Proof.
  intros Ho Ht. unfold name_exists, visible_rows. rewrite Ho, Ht. cbn [bind].
  now rewrite first_of_filter.
Qed.

(** After the rounds of [upsert], the identity of each document is the id
    of a row. *)
Lemma staged_all_upsert_id self db docs : forall t t' d,
  staged_all (upsert_statement md5_hexdigest) self db docs t = Ok t' ->
  In d docs ->
  db_online db = true /\
  exists rows', t' = Some rows' /\ In (identity md5_hexdigest d) (map row_id rows').
Proof.
  induction docs as [| d1 docs IH]; intros t t' d; cbn [staged_all]; [intros _ [] |].
  destruct (staged (upsert_statement md5_hexdigest) self db t d1) as [t1 |] eqn:Hd1;
    [| discriminate].
  cbn [bind]. intros Hrest [<- | Hin]; [| eapply IH; eassumption].
  pose proof (staged_upsert_inv _ _ _ _ _ _ Hd1) as (stmt0 & _ & Hs0 & Ho & _ & _ & Hid & _).
  apply staged_upsert_row in Hd1 as (stmt & rows1 & Hs & -> & (r & Hr & Hrid) & _).
  assert (stmt0 = stmt) as -> by congruence.
  split; [exact Ho |].
  apply staged_all_upsert_keys in Hrest as (rows' & added & -> & Hkeys & _).
  exists rows'. split; [reflexivity |].
  rewrite map_row_id_key, Hkeys, map_app, <- map_row_id_key.
  apply in_or_app. left. rewrite <- Hid, <- Hrid. now apply in_map.
Qed.

(** X11.  What a write stored can be looked up: after a call of [insert]
    that ended normally, [id_exists] answers [True] for the identity of
    each of its documents (its own non-empty id, or else the digest of its
    normalised content) and [name_exists] for each of their names; after a
    call of [upsert] that ended normally, [id_exists] answers [True] for
    the identity of each of its documents. *)
Theorem written_documents_are_found (self : PgVector) (docs : list Document)
        (batch_size : Z) (db : Database) (d : Document) :
  In d docs ->
  (error (insert md5_hexdigest self docs batch_size db) = None ->
   id_exists self (identity md5_hexdigest d)
     (final (insert md5_hexdigest self docs batch_size db)) = Ok true /\
   (forall name, doc_name d = Some name ->
      name_exists self name
        (final (insert md5_hexdigest self docs batch_size db)) = Ok true)) /\
  (error (upsert md5_hexdigest self docs batch_size db) = None ->
   id_exists self (identity md5_hexdigest d)
     (final (upsert md5_hexdigest self docs batch_size db)) = Ok true).
Proof.
  intros Hin. split; intros He.
  - unfold insert in *.
    pose proof (write_call_success _ _ _ _ _ He) as Hall.
    pose proof (write_call_keeps_database (insert_statement md5_hexdigest) self docs
                  batch_size db) as (Ho & _).
    destruct (staged_all_insert_row _ _ _ _ _ _ d Hall Hin)
      as (stmt & rows' & Hs & Hon & _ & Hid & Ht & Hr).
    symmetry in Ht. split.
    + rewrite (id_exists_key _ _ _ rows') by congruence. f_equal.
      apply existsb_exists. eexists. split; [exact Hr |].
      unfold has_id. cbn [proposed_row row_id]. rewrite Hid. apply String.eqb_refl.
    + intros name Hname.
      rewrite (name_exists_key _ _ _ rows') by congruence. f_equal.
      apply existsb_exists. eexists. split; [exact Hr |].
      apply insert_statement_ok in Hs as (v & _ & Hvals & _).
      destruct Hvals as (_ & Hn & _).
      cbn [cell proposed_row row_name]. rewrite Hn, Hname.
      cbn [option_str pyvalue_eqb]. apply String.eqb_refl.
  - unfold upsert in *.
    pose proof (write_call_success _ _ _ _ _ He) as Hall.
    pose proof (write_call_keeps_database (upsert_statement md5_hexdigest) self docs
                  batch_size db) as (Ho & _).
    destruct (staged_all_upsert_id _ _ _ _ _ d Hall Hin) as (Hon & rows' & Ht & Hr).
    symmetry in Ht.
    rewrite (id_exists_key _ _ _ rows') by congruence. f_equal.
    now apply has_id_present.
Qed.


(** *** Counting *)

Lemma count_name_total (rows : list Row) :
  count_name rows = Z.of_nat (List.length rows) ->
  Forall (fun r => row_name r <> None) rows.
Proof.
  induction rows as [| r rows IH]; [constructor |].
  intros H. pose proof (count_name_le_length rows) as Hle.
  unfold count_name in *. cbn [filter cell List.length] in *.
  destruct (row_name r) as [name |] eqn:Hr;
    cbn [option_str pyvalue_eqb negb List.length] in *.
  - constructor; [congruence |]. apply IH. lia.
  - lia.
Qed.

(** X13.  [get_count] answers, when it answers, a number between zero and
    the number of rows of the table, and that number is the number of rows
    exactly when no row has a NULL name. *)
Theorem get_count_is_total_iff_named (self : PgVector) (db : Database) (n : Z) :
  get_count self db = Ok n ->
  exists rows,
    db_table db = Some rows /\
    0 <= n <= Z.of_nat (List.length rows) /\
    (n = Z.of_nat (List.length rows) <-> Forall (fun r => row_name r <> None) rows).
Proof.
  unfold get_count, visible_rows.
  destruct (db_online db); [| discriminate].
  destruct (db_table db) as [rows |]; [| discriminate].
  cbn [bind count_of_scalar]. intros [= <-].
  exists rows. split; [reflexivity |]. split; [apply count_name_le_length |].
  split; [apply count_name_total | apply count_name_all_named].
Qed.

Lemma count_name_app (a b : list Row) :
  count_name (a ++ b) = count_name a + count_name b.
Proof. unfold count_name. rewrite filter_app, length_app. lia. Qed.

Lemma count_name_proposed self db docs stmts :
  Forall2 (fun d stmt => insert_statement md5_hexdigest self d = Ok stmt) docs stmts ->
  count_name (map (fun stmt => proposed_row stmt (db_now db)) stmts)
  = Z.of_nat (List.length
      (filter (fun d => match doc_name d with Some _ => true | None => false end) docs)).
Proof.
  induction 1 as [| d stmt docs stmts Hs _ IH]; [reflexivity |].
  apply insert_statement_ok in Hs as (v & _ & Hvals & _).
  destruct Hvals as (_ & Hn & _).
  change (count_name (proposed_row stmt (db_now db)
                        :: map (fun stmt => proposed_row stmt (db_now db)) stmts)
          = Z.of_nat (List.length
              (filter (fun d => match doc_name d with Some _ => true | None => false end)
                      (d :: docs)))).
  change (proposed_row stmt (db_now db)
            :: map (fun stmt => proposed_row stmt (db_now db)) stmts)
    with ([proposed_row stmt (db_now db)]
            ++ map (fun stmt => proposed_row stmt (db_now db)) stmts).
  rewrite count_name_app, IH. cbn [filter].
  unfold count_name at 1. cbn [filter cell proposed_row row_name]. rewrite Hn.
  destruct (doc_name d); cbn [option_str pyvalue_eqb negb List.length]; lia.
Qed.

(** X23.  [insert] and [get_count] agree: after a call of [insert] that
    ended normally, [get_count] has grown by the number of inserted
    documents that have a name. *)
Theorem insert_raises_the_count (self : PgVector) (docs : list Document)
        (batch_size : Z) (db : Database) (rows : list Row) :
  db_online db = true -> db_table db = Some rows ->
  error (insert md5_hexdigest self docs batch_size db) = None ->
  get_count self db = Ok (count_name rows) /\
  get_count self (final (insert md5_hexdigest self docs batch_size db))
  = Ok (count_name rows
        + Z.of_nat (List.length
            (filter (fun d => match doc_name d with Some _ => true | None => false end)
                    docs))).
Proof.
  intros Ho Ht He. split; [now apply get_count_counts_names |].
  unfold insert in *.
  pose proof (write_call_success _ _ _ _ _ He) as Hall.
  pose proof (write_call_keeps_database (insert_statement md5_hexdigest) self docs
                batch_size db) as (Ho1 & _).
  cbv zeta in Ho1.
  rewrite Ht in Hall. apply staged_all_insert_rows in Hall as (stmts & Hstmts & Hfin).
  rewrite Ho in Ho1.
  rewrite (get_count_counts_names self _ _ Ho1 Hfin).
  now rewrite count_name_app, (count_name_proposed self db docs stmts Hstmts).
Qed.

End Lookups.

(** *** Provisioning, dropping and emptying *)

Section Schema.

Variable md5_hexdigest : str -> str.
Variable collection_attr : string -> bool.
Variable proximity : order_expr -> Row -> Z.

(** What [create] has done when it returns. *)
Lemma create_ok self db db1 :
  create self db = Ok db1 ->
  db_online db = true /\ db_online db1 = true /\
  ((exists rows, db_table db = Some rows) /\ db1 = db \/
   db_table db = None /\ db_table db1 = Some []).
Proof.
  unfold create, table_exists, has_table.
  destruct (db_online db) eqn:Ho; [| discriminate].
  destruct (db_table db) as [rows |] eqn:Ht; cbn [bind negb].
  - intros [= <-]. split; [reflexivity |]. split; [assumption |]. left. eauto.
  - intros H. split; [reflexivity |].
    assert (db_online db1 = true /\ db_table db1 = Some []) as [H1 H2]; [| auto].
    revert H. unfold create_extension, create_schema, create_table.
    destruct db as [on ddl ext schemas t now]. cbn in Ho, Ht. subst.
    destruct ext, ddl, (schema self) as [name |]; cbn;
      try destruct (existsb (String.eqb name) schemas); cbn;
      try discriminate; intros [= <-]; split; reflexivity.
Qed.

(** X14.  [create] is idempotent and keeps what is stored: when it
    returns, the table exists, with its rows untouched if it existed
    before and empty if it did not; calling [create] again returns the same
    database, and [exists] answers [True]. *)
Theorem create_is_idempotent (self : PgVector) (db db1 : Database) :
  create self db = Ok db1 ->
  (exists rows, db_table db1 = Some rows /\ (db_table db = None -> rows = [])) /\
  (db_table db <> None -> db1 = db) /\
  create self db1 = Ok db1 /\
  exists_ self db1 = Ok true.
Proof.
  intros H. apply create_ok in H as (Ho & Ho1 & [[(rows & Ht) ->] | [Ht Ht1]]).
  - split; [exists rows; split; [assumption | congruence] |].
    split; [reflexivity |].
    split; [apply create_keeps_table; congruence |].
    unfold exists_. now rewrite table_exists_online, Ht.
  - split; [exists []; auto |]. split; [congruence |].
    split; [apply create_keeps_table; congruence |].
    unfold exists_. now rewrite table_exists_online, Ht1.
Qed.

(** X15.  [delete] drops the table and nothing else: when it returns the
    table is gone and [exists] answers [False]; on a database without the
    table it changes nothing, so it can be repeated; afterwards [get_count]
    raises for the missing relation, and [create], where creation is
    allowed, provisions an empty table again. *)
Theorem delete_drops_the_table (self : PgVector) (db db1 : Database) :
  delete self db = Ok db1 ->
  db_table db1 = None /\
  db1 = set_table db None /\
  exists_ self db1 = Ok false /\
  delete self db1 = Ok db1 /\
  get_count self db1 = Raise (ProgrammingError "relation does not exist") /\
  (db_ddl_allowed db = true ->
   exists db2, create self db1 = Ok db2 /\ db_table db2 = Some []).
Proof.
  intros H. unfold delete, table_exists, has_table in H.
  destruct (db_online db) eqn:Ho; [| discriminate].
  cbn [bind] in H.
  assert (db1 = set_table db None) as ->.
  { destruct (db_table db) eqn:Ht; injection H as <-; [reflexivity |].
    now rewrite <- Ht, set_table_same. }
  assert (db_online (set_table db None) = true) as Ho1 by exact Ho.
  assert (db_table (set_table db None) = None) as Ht1 by reflexivity.
  split; [reflexivity |]. split; [reflexivity |].
  split; [unfold exists_; now rewrite table_exists_online, Ht1 |].
  split; [unfold delete; now rewrite table_exists_online, Ht1 |].
  split; [unfold get_count, visible_rows; now rewrite Ho1, Ht1 |].
  intros Ha.
  apply (create_provisions self (set_table db None)); assumption.
Qed.

(** X16.  [clear] removes every row and keeps the table: when it returns,
    it returns [True], the table is in place and empty, [get_count]
    answers 0, the three existence probes answer [False] for every
    argument, and [search] returns the empty list and leaves the database
    alone. *)
Theorem clear_empties_the_table (self : PgVector) (db db1 : Database) (b : bool) :
  clear self db = Ok (b, db1) ->
  b = true /\
  db1 = set_table db (Some []) /\
  (exists rows, db_table db = Some rows) /\
  exists_ self db1 = Ok true /\
  get_count self db1 = Ok 0 /\
  (forall d, doc_exists md5_hexdigest self d db1 = Ok false) /\
  (forall name, name_exists self name db1 = Ok false) /\
  (forall id, id_exists self id db1 = Ok false) /\
  (forall query limit filters,
      search collection_attr proximity self query limit filters db1 = Ok ([], db1)).
Proof.
  intros H. unfold clear, visible_rows in H.
  destruct (db_online db) eqn:Ho; [| discriminate].
  destruct (db_table db) as [rows |] eqn:Ht; [| discriminate].
  cbn [bind] in H. injection H as <- <-.
  assert (db_online (set_table db (Some [])) = true) as Ho1 by exact Ho.
  assert (db_table (set_table db (Some [])) = Some []) as Ht1 by reflexivity.
  split; [reflexivity |]. split; [reflexivity |]. split; [eauto |].
  split; [unfold exists_; now rewrite table_exists_online, Ht1 |].
  unfold get_count, doc_exists, name_exists, id_exists, visible_rows.
  rewrite Ho1, Ht1. cbn [bind].
  repeat (split; [reflexivity |]).
  intros query limit filters. unfold search.
  destruct (get_embedding (embedder self) query) as [q |]; [| reflexivity].
  unfold fetch_neighbors, visible_rows. rewrite Ho1, Ht1.
  cbn [bind]. unfold execute_select. rewrite search_statement_limit.
  destruct (limit <? 0).
  - rewrite create_keeps_table; [reflexivity | exact Ho1 | now rewrite Ht1].
  - cbn [filter sort_rows fold_left]. now rewrite firstn_nil.
Qed.

(** X21.  On an engine that cannot be reached nothing answers: [create]
    and [delete] end in the [NameError] of the existence probe, and so does
    [search] once the query has an embedding, while a query without an
    embedding still returns the empty list; the probes, [get_count] and
    [clear] raise the connection error, and [insert] and [upsert] end with
    it at their first document, nothing committed. *)
Theorem unreachable_engine (self : PgVector) (db : Database) :
  db_online db = false ->
  create self db = Raise (NameError "logger") /\
  delete self db = Raise (NameError "logger") /\
  (forall query limit filters,
      search collection_attr proximity self query limit filters db
      = match get_embedding (embedder self) query with
        | Some _ => Raise (NameError "logger")
        | None => Ok ([], db)
        end) /\
  (forall d, doc_exists md5_hexdigest self d db = Raise OperationalError) /\
  (forall name, name_exists self name db = Raise OperationalError) /\
  (forall id, id_exists self id db = Raise OperationalError) /\
  get_count self db = Raise OperationalError /\
  clear self db = Raise OperationalError /\
  (forall d rest batch_size v,
      get_embedding (embedder self) (doc_content d) = Some v ->
      insert md5_hexdigest self (d :: rest) batch_size db
      = {| final := db; commits := 0; error := Some OperationalError |} /\
      upsert md5_hexdigest self (d :: rest) batch_size db
      = {| final := db; commits := 0; error := Some OperationalError |}).
Proof.
  intros Ho.
  assert (create self db = Raise (NameError "logger")) as Hc.
  { unfold create, table_exists, has_table. now rewrite Ho. }
  split; [exact Hc |].
  split; [unfold delete, table_exists, has_table; now rewrite Ho |].
  split.
  { intros query limit filters. unfold search.
    destruct (get_embedding (embedder self) query) as [q |]; [| reflexivity].
    unfold fetch_neighbors, visible_rows. rewrite Ho. cbn [bind]. now rewrite Hc. }
  unfold doc_exists, name_exists, id_exists, get_count, clear, visible_rows.
  rewrite Ho. cbn [bind]. repeat (split; [reflexivity |]).
  intros d rest batch_size v Hv.
  split; apply write_loop_first_round_fails;
    unfold staged, upsert_statement, insert_statement, Document_embed;
    rewrite Hv; cbn [bind]; unfold run_insert, visible_rows; rewrite Ho;
    reflexivity.
Qed.

End Schema.

(** *** What [search] reads and returns *)

Section SearchResults.

Variable md5_hexdigest : str -> str.
Variable collection_attr : string -> bool.
Variable proximity : order_expr -> Row -> Z.

(** The documents of a call of [search] that found the table. *)
Lemma search_ok_rows self query limit filters db docs db' :
  search collection_attr proximity self query limit filters db = Ok (docs, db') ->
  docs <> [] ->
  exists q rows neighbors,
    get_embedding (embedder self) query = Some q /\
    db_online db = true /\ db_table db = Some rows /\ db' = db /\
    execute_select proximity (search_statement collection_attr self q limit filters) rows
    = Ok neighbors /\
    docs = map document_of_neighbor neighbors.
Proof.
  unfold search. intros H Hdocs.
  destruct (get_embedding (embedder self) query) as [q |]; [| congruence].
  destruct (fetch_neighbors proximity self
              (search_statement collection_attr self q limit filters) db)
    as [neighbors | e] eqn:Hf.
  - injection H as <- <-.
    apply fetch_neighbors_ok in Hf as (rows & Ho & Ht & Hx).
    exists q, rows, neighbors. auto 10.
  - destruct (create self db); [| discriminate]. cbn [bind] in H. congruence.
Qed.

(** X17.  [search] never changes what is stored: a call that returns
    leaves a database whose table exists exactly as it was, and on a
    database without the table it returns no document and either changes
    nothing (the query has no embedding) or leaves the table provisioned
    and empty. *)
Theorem search_is_read_only (self : PgVector) (query : str) (limit : Z)
        (filters : option (list (string * pyvalue))) (db db' : Database)
        (docs : list Document) :
  search collection_attr proximity self query limit filters db = Ok (docs, db') ->
  (db_table db <> None -> db' = db) /\
  (db_table db = None ->
   docs = [] /\
   match get_embedding (embedder self) query with
   | Some _ => db_table db' = Some []
   | None => db' = db
   end).
Proof.
  unfold search. intros H.
  destruct (get_embedding (embedder self) query) as [q |].
  2:{ injection H as <- <-. auto. }
  destruct (fetch_neighbors proximity self
              (search_statement collection_attr self q limit filters) db)
    as [neighbors | e] eqn:Hf.
  - injection H as <- <-.
    apply fetch_neighbors_ok in Hf as (rows & _ & Ht & _).
    split; [reflexivity | congruence].
  - destruct (create self db) as [db1 |] eqn:Hc; [| discriminate].
    cbn [bind] in H. injection H as <- <-.
    apply create_ok in Hc as (_ & _ & [[(rows & Ht) ->] | [Ht Ht1]]).
    + split; [reflexivity | congruence].
    + split; [congruence | auto].
Qed.

(** X18.  Every filter entry whose key is a column is applied: each
    document that [search] returns is built from a stored row whose value
    in that column equals the value of the entry, for every such entry at
    once. *)
Theorem search_applies_column_filters (self : PgVector) (query : str) (limit : Z)
        (items : list (string * pyvalue)) (db db' : Database)
        (docs : list Document) (d : Document) :
  search collection_attr proximity self query limit (Some items) db = Ok (docs, db') ->
  In d docs ->
  exists rows r,
    db_table db = Some rows /\ In r rows /\ d = document_of_row r /\
    forall key value c,
      In (key, value) items -> column_of_name key = Some c ->
      pyvalue_eqb (cell c r) value = true.
Proof.
  intros H Hd.
  apply search_ok_rows in H as (q & rows & neighbors & _ & _ & Ht & _ & Hx & ->).
  2:{ intros ->. destruct Hd. }
  apply in_map_iff in Hd as (nb & <- & Hnb).
  apply execute_select_ok in Hx as [_ Hrows].
  destruct (Hrows nb Hnb) as (r & Hr & Hall & ->).
  rewrite search_statement_columns, document_of_projection.
  exists rows, r. repeat (split; [auto; fail |]).
  intros key value c Hin Hc.
  rewrite search_statement_where, forallb_forall in Hall.
  apply (Hall (w_eq c value)). apply in_flat_map.
  exists (key, value). split; [assumption |].
  unfold criteria_of. cbn [fst snd]. rewrite Hc. now left.
Qed.

(** *** The nearest rows *)







(** X2.  What [search] finds, [doc_exists] confirms: on a table whose
    rows are as the write paths leave them, every document returned by
    [search] is reported as existing by [doc_exists], on the database that
    [search] leaves. *)
Theorem found_documents_exist (self : PgVector) (query : str) (limit : Z)
        (filters : option (list (string * pyvalue))) (db db' : Database)
        (rows : list Row) (docs : list Document) (d : Document) :
  db_table db = Some rows ->
  Forall (clean_row md5_hexdigest self) rows ->
  search collection_attr proximity self query limit filters db = Ok (docs, db') ->
  In d docs ->
  doc_exists md5_hexdigest self d db' = Ok true.
Proof.
  intros Ht Hrows H Hd.
  apply search_ok_rows in H as (q & rows0 & neighbors & _ & Ho & Ht0 & -> & Hx & ->).
  2:{ intros ->. destruct Hd. }
  assert (rows0 = rows) as -> by congruence.
  apply in_map_iff in Hd as (nb & <- & Hnb).
  apply execute_select_ok in Hx as [_ Hsel].
  destruct (Hsel nb Hnb) as (r & Hr & _ & ->).
  rewrite search_statement_columns, document_of_projection.
  rewrite Forall_forall in Hrows. destruct (Hrows r Hr) as (Hnul & Hhash & _).
  apply (doc_exists_found md5_hexdigest self _ db rows r Ho Ht Hr).
  cbn [document_of_row doc_content]. now rewrite replace_nul_clean.
Qed.

(** X22.  A negative limit is no error for the caller: the engine
    refuses the statement, the handler of [search] swallows the refusal,
    and on a table that is in place [search] returns the empty list and
    leaves the database as it was. *)
Theorem search_with_negative_limit (self : PgVector) (query : str) (limit : Z)
        (filters : option (list (string * pyvalue))) (db : Database)
        (rows : list Row) (q : vector) :
  db_online db = true -> db_table db = Some rows ->
  get_embedding (embedder self) query = Some q ->
  limit < 0 ->
  fetch_neighbors proximity self
    (search_statement collection_attr self q limit filters) db
  = Raise (DataError "LIMIT must not be negative") /\
  search collection_attr proximity self query limit filters db = Ok ([], db).
Proof.
  intros Ho Ht Hq Hl.
  assert (fetch_neighbors proximity self
            (search_statement collection_attr self q limit filters) db
          = Raise (DataError "LIMIT must not be negative")) as Hf.
  { unfold fetch_neighbors, visible_rows. rewrite Ho, Ht. cbn [bind].
    unfold execute_select. rewrite search_statement_limit.
    now apply Z.ltb_lt in Hl as ->. }
  split; [exact Hf |].
  unfold search. rewrite Hq, Hf, create_keeps_table; [reflexivity | exact Ho | congruence].
Qed.




End SearchResults.

(** *** Index sizing on small tables *)

Lemma sizes_to_zero_below_thousand :
  forallb sizes_to_zero (map Z.of_nat (seq 0 1000)) = true.
Proof. vm_compute. reflexivity. Qed.

Lemma small_count_sizes_to_zero (n : Z) :
  0 <= n < 1000 -> (q <- truediv n 1000 ;; int_of_float q) = Ok 0.
Proof.
  intros Hn. pose proof sizes_to_zero_below_thousand as H.
  rewrite forallb_forall in H. specialize (H n).
  assert (sizes_to_zero n = true) as Hz.
  { apply H. apply in_map_iff. exists (Z.to_nat n). split; [lia |].
    apply in_seq. lia. }
  unfold sizes_to_zero in Hz.
  destruct (q <- truediv n 1000 ;; int_of_float q) as [[| p | p] | e];
    (reflexivity || discriminate).
Qed.

(** X20.  On a small collection dynamic sizing computes no list at all:
    with [dynamic_lists] set and a table of fewer than one thousand rows,
    the empty table included, the number of lists that [optimize] computes
    for its index statement is 0, whatever the configured number of
    lists. *)
Theorem dynamic_lists_of_small_table (self : PgVector) (i : Ivfflat) (db : Database)
        (rows : list Row) :
  dynamic_lists i = true ->
  db_online db = true -> db_table db = Some rows ->
  (List.length rows < 1000)%nat ->
  get_count self db = Ok (count_name rows) /\
  0 <= count_name rows < 1000 /\
  num_lists i (get_count self db) = Ok 0.
Proof.
  intros Hd Ho Ht Hlen.
  pose proof (count_name_le_length rows) as Hc.
  rewrite (get_count_counts_names self db rows Ho Ht).
  split; [reflexivity |]. split; [lia |].
  rewrite num_lists_below_million by (assumption || lia).
  apply small_count_sizes_to_zero. lia.
Qed.

(* ================================================================== *)
(** ** The further properties on concrete collections *)
(* ================================================================== *)

Lemma row_a_is_clean : Forall (clean_row sample_digest sample_collection) [row_a].
Proof. constructor; [| constructor]. unfold clean_row. repeat split; reflexivity. Defined.

Lemma writes_keep_rows_clean_witness :
  db_table (db_with [row_a]) = Some [row_a] /\
  Forall (clean_row sample_digest sample_collection) [row_a] /\
  exists rows',
    db_table (final (insert sample_digest sample_collection [doc_b] 1 (db_with [row_a])))
    = Some rows' /\
    Forall (clean_row sample_digest sample_collection) rows'.
Proof.
  split; [reflexivity |]. split; [exact row_a_is_clean |].
  apply (writes_keep_rows_clean sample_digest sample_collection [doc_b] 1
           (db_with [row_a]) [row_a] eq_refl row_a_is_clean).
Defined.

Lemma found_documents_exist_witness :
  db_table (db_with [row_a]) = Some [row_a] /\
  search sample_collection_attr sample_proximity sample_collection "q" 5 None
         (db_with [row_a])
  = Ok ([document_of_row row_a], db_with [row_a]) /\
  doc_exists sample_digest sample_collection (document_of_row row_a) (db_with [row_a])
  = Ok true.
Proof.
  split; [reflexivity |]. split; [reflexivity |].
  apply (found_documents_exist sample_digest sample_collection_attr sample_proximity
           sample_collection "q" 5 None (db_with [row_a]) (db_with [row_a]) [row_a]
           [document_of_row row_a] (document_of_row row_a)
           eq_refl row_a_is_clean eq_refl).
  simpl. auto.
Defined.

Lemma insert_only_appends_witness :
  db_table (db_with [named_row]) = Some [named_row] /\
  exists n stmts,
    (n <= List.length [doc_a; doc_unembeddable])%nat /\
    Forall2 (fun d stmt => insert_statement sample_digest sample_collection d = Ok stmt)
            (firstn n [doc_a; doc_unembeddable]) stmts /\
    db_table (final (insert sample_digest sample_collection [doc_a; doc_unembeddable] 1
                       (db_with [named_row])))
    = Some ([named_row]
            ++ map (fun stmt => proposed_row stmt (db_now (db_with [named_row]))) stmts) /\
    (error (insert sample_digest sample_collection [doc_a; doc_unembeddable] 1
              (db_with [named_row])) = None ->
     n = List.length [doc_a; doc_unembeddable]).
Proof.
  split; [reflexivity |].
  apply (insert_only_appends sample_digest sample_collection [doc_a; doc_unembeddable] 1
           (db_with [named_row]) [named_row] eq_refl).
Defined.

Lemma upsert_keeps_rows_in_place_witness :
  db_table (db_with [row_a]) = Some [row_a] /\
  exists rows' added,
    db_table (final (upsert sample_digest sample_collection [doc_a_renamed; doc_b] 2
                       (db_with [row_a]))) = Some rows' /\
    map row_key rows' = map row_key [row_a] ++ added /\
    (List.length [row_a] <= List.length rows'
     <= List.length [row_a] + List.length [doc_a_renamed; doc_b])%nat.
Proof.
  split; [reflexivity |].
  apply (upsert_keeps_rows_in_place sample_digest sample_collection
           [doc_a_renamed; doc_b] 2 (db_with [row_a]) [row_a] eq_refl).
Defined.

Lemma named_and_unnamed_ids_differ : NoDup (map row_id [named_row; unnamed_row]).
Proof.
  constructor; [| constructor; [intros [] | constructor]].
  simpl. intros [H | []]. discriminate.
Defined.

Lemma writes_keep_ids_unique_witness :
  db_table two_rows_db = Some [named_row; unnamed_row] /\
  NoDup (map row_id [named_row; unnamed_row]) /\
  exists rows',
    db_table (final (upsert sample_digest sample_collection [doc_a; doc_a_renamed] 1
                       two_rows_db)) = Some rows' /\
    NoDup (map row_id rows').
Proof.
  split; [reflexivity |]. split; [exact named_and_unnamed_ids_differ |].
  apply (writes_keep_ids_unique sample_digest sample_collection [doc_a; doc_a_renamed] 1
           two_rows_db [named_row; unnamed_row] eq_refl named_and_unnamed_ids_differ).
Defined.

Lemma write_rejects_wrong_dimension_witness :
  db_online empty_db = true /\ db_table empty_db = Some [] /\
  get_embedding (embedder mismatched_collection) (doc_content doc_a) = Some sample_vector /\
  Z.of_nat (List.length sample_vector) <> dimensions mismatched_collection /\
  insert sample_digest mismatched_collection [doc_a; doc_b] 10 empty_db
  = {| final := empty_db; commits := 0;
       error := Some (DataError "expected another number of dimensions") |}.
Proof.
  assert (Z.of_nat (List.length sample_vector) <> dimensions mismatched_collection) as H.
  { cbv. lia. }
  split; [reflexivity |]. split; [reflexivity |]. split; [reflexivity |].
  split; [exact H |].
  apply (write_rejects_wrong_dimension sample_digest mismatched_collection doc_a [doc_b]
           10 empty_db [] sample_vector eq_refl eq_refl eq_refl H).
Defined.

Lemma small_batch_commits_each_document_witness :
  -3 <= 1 /\
  insert sample_digest sample_collection [doc_a; doc_b] (-3) empty_db
  = insert sample_digest sample_collection [doc_a; doc_b] 1 empty_db /\
  commits (insert sample_digest sample_collection [doc_a; doc_b] (-3) empty_db) = 2%nat /\
  error (upsert sample_digest sample_collection [doc_a; doc_b; doc_unembeddable; doc_c] 0
           empty_db) = Some EmbeddingError /\
  commits (upsert sample_digest sample_collection [doc_a; doc_b; doc_unembeddable; doc_c] 0
             empty_db) = 2%nat.
Proof.
  assert (-3 <= 1) as H by lia.
  assert (0 <= 1) as H0 by lia.
  split; [exact H |].
  destruct (small_batch_commits_each_document sample_digest sample_collection
              [doc_a; doc_b] (-3) empty_db H) as (Hi & _ & Hc & _).
  split; [exact Hi |]. split; [exact (Hc eq_refl) |].
  destruct (small_batch_commits_each_document sample_digest sample_collection
              [doc_a; doc_b; doc_unembeddable; doc_c] 0 empty_db H0)
    as (_ & _ & _ & _ & _ & Hu).
  destruct (Hu [doc_a; doc_b] doc_unembeddable [doc_c] _ EmbeddingError
              eq_refl eq_refl eq_refl) as (He & Hn & _).
  split; [exact He | exact Hn].
Defined.

Lemma insert_rejects_stored_document_witness :
  In doc_a [doc_a; doc_b] /\
  error (insert sample_digest sample_collection [doc_a; doc_b] 2 empty_db) = None /\
  insert sample_digest sample_collection [doc_a; doc_c] 10
         (final (insert sample_digest sample_collection [doc_a; doc_b] 2 empty_db))
  = {| final := final (insert sample_digest sample_collection [doc_a; doc_b] 2 empty_db);
       commits := 0;
       error := Some (IntegrityError (identity sample_digest doc_a)) |}.
Proof.
  assert (In doc_a [doc_a; doc_b]) as H by (simpl; auto).
  split; [exact H |]. split; [reflexivity |].
  apply (insert_rejects_stored_document sample_digest sample_collection [doc_a; doc_b] 2
           empty_db doc_a [doc_c] 10 H eq_refl).
Defined.

Lemma upsert_again_changes_nothing_witness :
  error (upsert sample_digest sample_collection ([doc_a] ++ [doc_a_renamed]) 2 empty_db)
  = None /\
  upsert sample_digest sample_collection [doc_a_renamed] 5
         (final (upsert sample_digest sample_collection ([doc_a] ++ [doc_a_renamed]) 2
                   empty_db))
  = {| final := final (upsert sample_digest sample_collection
                         ([doc_a] ++ [doc_a_renamed]) 2 empty_db);
       commits := 1; error := None |}.
Proof.
  split; [reflexivity |].
  apply (upsert_again_changes_nothing sample_digest sample_collection [doc_a]
           doc_a_renamed 2 empty_db 5 eq_refl).
Defined.

Lemma upsert_agrees_with_insert_witness :
  error (insert sample_digest sample_collection [doc_a; doc_b; doc_c] 2 empty_db) = None /\
  upsert sample_digest sample_collection [doc_a; doc_b; doc_c] 2 empty_db
  = insert sample_digest sample_collection [doc_a; doc_b; doc_c] 2 empty_db.
Proof.
  split; [reflexivity |].
  apply (upsert_agrees_with_insert sample_digest sample_collection [doc_a; doc_b; doc_c] 2
           empty_db eq_refl).
Defined.

Lemma written_documents_are_found_witness :
  In doc_b [doc_a; doc_b] /\
  error (insert sample_digest sample_collection [doc_a; doc_b] 2 empty_db) = None /\
  id_exists sample_collection (identity sample_digest doc_b)
    (final (insert sample_digest sample_collection [doc_a; doc_b] 2 empty_db)) = Ok true /\
  name_exists sample_collection "b"
    (final (insert sample_digest sample_collection [doc_a; doc_b] 2 empty_db)) = Ok true.
Proof.
  assert (In doc_b [doc_a; doc_b]) as H by (simpl; auto).
  split; [exact H |]. split; [reflexivity |].
  destruct (written_documents_are_found sample_digest sample_collection [doc_a; doc_b] 2
              empty_db doc_b H) as [Hi _].
  destruct (Hi eq_refl) as [Hid Hname].
  split; [exact Hid | exact (Hname "b" eq_refl)].
Defined.


Lemma get_count_is_total_iff_named_witness :
  get_count sample_collection two_rows_db = Ok 1 /\
  exists rows,
    db_table two_rows_db = Some rows /\
    0 <= 1 <= Z.of_nat (List.length rows) /\
    (1 = Z.of_nat (List.length rows) <-> Forall (fun r => row_name r <> None) rows).
Proof.
  split; [reflexivity |].
  apply (get_count_is_total_iff_named sample_collection two_rows_db 1 eq_refl).
Defined.

Lemma create_is_idempotent_witness :
  create sample_collection cold_db = Ok empty_db /\
  create sample_collection empty_db = Ok empty_db /\
  exists_ sample_collection empty_db = Ok true.
Proof.
  split; [reflexivity |].
  destruct (create_is_idempotent sample_collection cold_db empty_db eq_refl)
    as (_ & _ & Hc & He).
  split; [exact Hc | exact He].
Defined.

Lemma delete_drops_the_table_witness :
  delete sample_collection two_rows_db = Ok (set_table two_rows_db None) /\
  db_table (set_table two_rows_db None) = None /\
  exists_ sample_collection (set_table two_rows_db None) = Ok false /\
  delete sample_collection (set_table two_rows_db None) = Ok (set_table two_rows_db None).
Proof.
  split; [reflexivity |].
  destruct (delete_drops_the_table sample_collection two_rows_db
              (set_table two_rows_db None) eq_refl) as (Ht & _ & He & Hd & _).
  split; [exact Ht |]. split; [exact He | exact Hd].
Defined.

Lemma clear_empties_the_table_witness :
  clear sample_collection two_rows_db = Ok (true, empty_db) /\
  get_count sample_collection empty_db = Ok 0 /\
  exists_ sample_collection empty_db = Ok true.
Proof.
  split; [reflexivity |].
  destruct (clear_empties_the_table sample_digest sample_collection_attr sample_proximity
              sample_collection two_rows_db empty_db true eq_refl)
    as (_ & _ & _ & He & Hc & _).
  split; [exact Hc | exact He].
Defined.

Lemma search_is_read_only_witness :
  search sample_collection_attr sample_proximity sample_collection "q" 5 None cold_db
  = Ok ([], empty_db) /\
  db_table cold_db = None /\
  db_table empty_db = Some [].
Proof.
  split; [reflexivity |]. split; [reflexivity |].
  destruct (search_is_read_only sample_collection_attr sample_proximity sample_collection
              "q" 5 None cold_db empty_db [] eq_refl) as [_ Hcold].
  exact (proj2 (Hcold eq_refl)).
Defined.

Lemma search_applies_column_filters_witness :
  search sample_collection_attr sample_proximity sample_collection "q" 5
         (Some [("name", PyStr "two")]) two_rows_db
  = Ok ([document_of_row named_row], two_rows_db) /\
  In (document_of_row named_row) [document_of_row named_row] /\
  exists rows r,
    db_table two_rows_db = Some rows /\ In r rows /\
    document_of_row named_row = document_of_row r /\
    forall key value c,
      In (key, value) [("name", PyStr "two")] -> column_of_name key = Some c ->
      pyvalue_eqb (cell c r) value = true.
Proof.
  assert (In (document_of_row named_row) [document_of_row named_row]) as H
      by (simpl; auto).
  split; [reflexivity |]. split; [exact H |].
  apply (search_applies_column_filters sample_collection_attr sample_proximity
           sample_collection "q" 5 [("name", PyStr "two")] two_rows_db two_rows_db
           [document_of_row named_row] (document_of_row named_row) eq_refl H).
Defined.


Lemma dynamic_lists_of_small_table_witness :
  dynamic_lists Ivfflat_default = true /\
  db_online two_rows_db = true /\
  db_table two_rows_db = Some [named_row; unnamed_row] /\
  (List.length [named_row; unnamed_row] < 1000)%nat /\
  lists Ivfflat_default = 100 /\
  num_lists Ivfflat_default (get_count sample_collection two_rows_db) = Ok 0.
Proof.
  assert (List.length [named_row; unnamed_row] < 1000)%nat as H by (simpl; lia).
  split; [reflexivity |]. split; [reflexivity |]. split; [reflexivity |].
  split; [exact H |]. split; [reflexivity |].
  apply (dynamic_lists_of_small_table sample_collection Ivfflat_default two_rows_db
           [named_row; unnamed_row] eq_refl eq_refl eq_refl H).
Defined.

Lemma unreachable_engine_witness :
  db_online offline_db = false /\
  create sample_collection offline_db = Raise (NameError "logger") /\
  delete sample_collection offline_db = Raise (NameError "logger") /\
  get_count sample_collection offline_db = Raise OperationalError.
Proof.
  split; [reflexivity |].
  destruct (unreachable_engine sample_digest sample_collection_attr sample_proximity
              sample_collection offline_db eq_refl)
    as (Hc & Hd & _ & _ & _ & _ & Hn & _).
  split; [exact Hc |]. split; [exact Hd | exact Hn].
Defined.

Lemma search_with_negative_limit_witness :
  db_online two_rows_db = true /\
  db_table two_rows_db = Some [named_row; unnamed_row] /\
  get_embedding (embedder sample_collection) "q" = Some sample_vector /\
  -1 < 0 /\
  search sample_collection_attr sample_proximity sample_collection "q" (-1) None
         two_rows_db
  = Ok ([], two_rows_db).
Proof.
  assert (-1 < 0) as H by lia.
  split; [reflexivity |]. split; [reflexivity |]. split; [reflexivity |].
  split; [exact H |].
  apply (search_with_negative_limit sample_collection_attr sample_proximity
           sample_collection "q" (-1) None two_rows_db [named_row; unnamed_row]
           sample_vector eq_refl eq_refl eq_refl H).
Defined.

Lemma insert_raises_the_count_witness :
  db_online two_rows_db = true /\
  db_table two_rows_db = Some [named_row; unnamed_row] /\
  error (insert sample_digest sample_collection [doc_a; doc_b] 10 two_rows_db) = None /\
  get_count sample_collection two_rows_db = Ok 1 /\
  get_count sample_collection
    (final (insert sample_digest sample_collection [doc_a; doc_b] 10 two_rows_db))
  = Ok 3.
Proof.
  split; [reflexivity |]. split; [reflexivity |]. split; [reflexivity |].
  apply (insert_raises_the_count sample_digest sample_collection [doc_a; doc_b] 10
           two_rows_db [named_row; unnamed_row] eq_refl eq_refl eq_refl).
Defined.

